(** * CO2 alarm device

    A shallow embedding of [CO2AlarmSystem.ino]: the threshold chain of
    [loop], the buzzer scheduler built on the [SimpleTimer] object, the
    blinking indicator, the AT command engine that talks to the ESP8266 and
    the ThingSpeak upload, followed by the properties of the sketch.

    Conventions.  The sketch runs on one thread, so every function is a
    function on the record [Sketch] that holds the globals, the function
    statics, the library objects and a log of the calls made to the
    hardware.  Time is a mathematical integer [clock] (milliseconds since
    power-on); [millis] reduces it to the 32-bit [unsigned long] the core
    returns.  Only blocking operations ([Stream::find], [delay]) let the clock
    advance inside a pass; [elapse] lets it advance between passes.  [long] and
    [unsigned long] are 32 bits wide and [int] is 16 bits wide; conversions
    to these types wrap and are written out where a value can leave the range
    of its type.  The command counter is incremented without a bound: signed
    overflow has no defined result, and no run considered here gets there. *)

From Stdlib Require Import ZArith List String Ascii Bool Lia DecimalString.
Import ListNotations.
Local Open Scope Z_scope.

(** ** Arithmetic of [int], [long] and [unsigned long] *)

Module Ints.

(** [int] has 16 bits on the boards the sketch is written for: [ledBlink]
    handles a [co2Level] that "goes into negative values" when the sensor is
    "exposed to over 50,000ppm", which happens for this width only.  A value
    converted to [int] wraps. *)
Definition to_int (x : Z) : Z := (x + 2 ^ 15) mod 2 ^ 16 - 2 ^ 15.

Definition to_ulong (x : Z) : Z := x mod 2 ^ 32.

Definition to_long (x : Z) : Z := (x + 2 ^ 31) mod 2 ^ 32 - 2 ^ 31.

(** [a - b] where one operand is [unsigned long]: the other one is converted
    and the difference wraps. *)
Definition ulong_sub (a b : Z) : Z := to_ulong (a - b).

(** [millis()] at true time [t]. *)
Definition millis (t : Z) : Z := to_ulong t.

End Ints.
Import Ints.

(** ** Text helpers *)

Definition dquote : string := String (ascii_of_nat 34) EmptyString.
Definition crlf : string := String (ascii_of_nat 13) (String (ascii_of_nat 10) EmptyString).

(** [String(n)] for an integer [n]. *)
Definition String_of_int (n : Z) : string := NilZero.string_of_int (Z.to_int n).

(** ** Pins and constants of the sketch *)

Definition BLUE : Z := 4.
Definition GREEN : Z := 5.
Definition RED : Z := 6.
Definition BUZZER : Z := 14.

(** [pitches.h] is not part of the sources; [NOTE_C5] has the value of the
    standard Arduino pitch table. *)
Definition NOTE_C5 : Z := 523.

Definition WIFI_SSID : string := "WIFI_NAME".
Definition WIFI_PASS : string := "WIFI_PASSWORD".
Definition HOST : string := "api.thingspeak.com".
Definition API : string := "API_KEY".
Definition PORT : string := "80".

(** ** Local variables

    [float temperature; float humidity;] are declared in [loop] without an
    initialiser, so at the start of a pass each of them holds what its place
    on the stack holds: [Assigned v] when [v] was left there, [Unassigned]
    when nothing was ever stored there. *)

Inductive Local (A : Type) : Type :=
| Unassigned : Local A
| Assigned : A -> Local A.
Arguments Unassigned {A}.
Arguments Assigned {A} _.

(** ** The SimpleTimer object

    [SimpleTimer] is an external library.  It is modelled by its interface: a
    table of [MAX_TIMERS] slots; [setInterval] takes the first free slot and
    returns its index, or [-1] when the table is full; [deleteTimer] frees a
    slot; [run] finds the timers whose period has elapsed, advances them and
    calls their callback.  The sketch registers one callback only,
    [buzzerManager], so a slot keeps the period and the time of the last
    firing. *)

Module SimpleTimer.

Definition MAX_TIMERS : nat := 10.

Record slot : Type := mkSlot { delay : Z; prev_millis : Z }.

Definition t : Type := list (option slot).

Definition empty : t := repeat None MAX_TIMERS.

Fixpoint firstFree (tm : t) : option nat :=
  match tm with
  | [] => None
  | None :: _ => Some O
  | Some _ :: rest => option_map S (firstFree rest)
  end.

Fixpoint put (i : nat) (v : option slot) (tm : t) : t :=
  match tm, i with
  | [], _ => []
  | _ :: rest, O => v :: rest
  | x :: rest, S j => x :: put j v rest
  end.

Definition numTimers (tm : t) : nat :=
  List.length (filter (fun x => match x with Some _ => true | None => false end) tm).

Definition setInterval (d now : Z) (tm : t) : Z * t :=
  match firstFree tm with
  | Some i => (Z.of_nat i, put i (Some (mkSlot d (millis now))) tm)
  | None => (-1, tm)
  end.

Definition deleteTimer (id : Z) (tm : t) : t :=
  if (id <? 0) || (Z.of_nat MAX_TIMERS <=? id) then tm
  else put (Z.to_nat id) None tm.

(** The number of callbacks to run at time [now], and the table afterwards. *)
Fixpoint run (now : Z) (tm : t) : nat * t :=
  match tm with
  | [] => (O, [])
  | None :: rest => let '(k, rest') := run now rest in (k, None :: rest')
  | Some sl :: rest =>
      let '(k, rest') := run now rest in
      if delay sl <=? ulong_sub (millis now) (prev_millis sl)
      then (S k, Some (mkSlot (delay sl) (to_ulong (prev_millis sl + delay sl))) :: rest')
      else (k, Some sl :: rest')
  end.

End SimpleTimer.

(** ** The serial stream to the ESP8266

    [SoftwareSerial] is an Arduino [Stream].  The sketch uses three of its
    operations.  [stream_find target now l] is the blocking [find]: it
    consumes inbound characters of the link [l] from time [now] on and gives
    the answer, the time at which it returns and the link afterwards. *)

Class Stream (L : Type) : Type := {
  stream_print : string -> L -> L;
  stream_println : string -> L -> L;
  stream_find : string -> Z -> L -> bool * Z * L
}.

(** [String(x)] for a [float] local; what it produces for a place that was
    never written is left to the instance. *)
Class FloatText (float : Type) : Type := {
  String_of_float : Local float -> string
}.

(** ** Threshold chain of [loop]

    What each branch of the chain does to the indicator. *)

Inductive Indicator : Type :=
| Steady (quiet : bool) (r g b : Z)
| Blinking
| Untouched.

(** The chain of [loop], lines 125-163: the value given to
    [currentCO2Threshold] (initialised to [-1]), what is done to the LED, and
    whether control is inside the outer [else], where the ThingSpeak update
    lives.  [ppm] is the value of [co2_sensor.ppm], a field of the NDIR_I2C
    object, whose declaration is not part of the sources.  The field is wider
    than [int] (a reading above 50,000 ppm fits it and only its [int] copy is
    negative), and the chain compares the field itself. *)
Definition band (ppm : Z) : Z * Indicator * bool :=
  if ppm <? 1000 then (0, Steady true 0 255 0, false)
  else if (1000 <=? ppm) && (ppm <? 2500) then (1, Blinking, false)
  else
    if (2500 <=? ppm) && (ppm <? 5000) then (2, Steady false 255 100 0, true)
    else if (5000 <=? ppm) && (ppm <? 10000) then (3, Blinking, true)
    else if (10000 <=? ppm) && (ppm <? 30000) then (4, Steady false 255 0 0, true)
    else if 30000 <=? ppm then (5, Blinking, true)
    else (-1, Untouched, true).

Definition classify (ppm : Z) : Z := fst (fst (band ppm)).

(** The period given to [timer.setInterval] by the [switch] of [loop], lines
    186-200; [None] where no [case] matches. *)
Definition alarmPeriod (currentCO2Threshold : Z) : option Z :=
  if currentCO2Threshold =? 2 then Some 10000
  else if currentCO2Threshold =? 3 then Some 5000
  else if currentCO2Threshold =? 4 then Some 1000
  else if currentCO2Threshold =? 5 then Some 1000
  else None.

(** The three [if]s of [buzzerManager] on the static [buzzerDuration]. *)
Definition selectDuration (co2Level buzzerDuration : Z) : Z :=
  let d1 := if (1000 <=? co2Level) && (co2Level <? 5000) then 2000 else buzzerDuration in
  let d2 := if (5000 <=? co2Level) && (co2Level <? 10000) then 1000 else d1 in
  if 10000 <=? co2Level then 500 else d2.

(** ** Sequencing of calls that may not return *)

Definition bind {A B : Type} (m : option A) (k : A -> option B) : option B :=
  match m with
  | Some a => k a
  | None => None
  end.

Notation "x <- m ;; k" := (bind m (fun x => k))
  (at level 61, m at next level, right associativity).

(** ** State of the sketch *)

Section Device.

Context {float : Type} {L : Type} {link : Stream L} {ftext : FloatText float}.

(** Calls made to the hardware and to the library objects, in order.
    [CallSendToThingSpeak] records an entry into [sendToThingSpeak] with its
    arguments. *)
Inductive Event : Type :=
| Tone (pin frequency duration : Z)
| NoTone (pin : Z)
| DeleteTimer (id : Z)
| SetInterval (d id : Z)
| CallSendToThingSpeak (temperature humidity : Local float) (co2 : Z)
| SerialPrint (text : string)
| SerialPrintInt (n : Z)
| LcdSetCursor (col row : Z)
| LcdPrint (text : string)
| LcdPrintInt (n : Z)
| LcdPrintFloat (x : Local float) (digits : Z)
| LcdPrintChar (code : Z).

Record Rgb : Type := mkRgb { red : Z; green : Z; blue : Z }.

Record Sketch : Type := mkSketch {
  (* globals *)
  timerId : Z;
  lastCO2Threshold : Z;
  countTrueCommand : Z;
  found : bool;
  co2Level : Z;
  (* function statics *)
  buzzerDuration : Z;
  lastSendTime : Z;
  ledStartTime : Z;
  ledOn : bool;
  measurementTimestamp : option Z;
  (* what the places of the locals [temperature] and [humidity] of [loop]
     hold on the stack *)
  stack_temperature : Local float;
  stack_humidity : Local float;
  (* objects and devices *)
  timer : SimpleTimer.t;
  rgb : Rgb;
  clock : Z;
  esp8266 : L;
  log : list Event
}.

Definition set_timerId v s :=
  mkSketch v (lastCO2Threshold s) (countTrueCommand s) (found s) (co2Level s)
    (buzzerDuration s) (lastSendTime s) (ledStartTime s) (ledOn s) (measurementTimestamp s)
    (stack_temperature s) (stack_humidity s)
    (timer s) (rgb s) (clock s) (esp8266 s) (log s).
Definition set_lastCO2Threshold v s :=
  mkSketch (timerId s) v (countTrueCommand s) (found s) (co2Level s)
    (buzzerDuration s) (lastSendTime s) (ledStartTime s) (ledOn s) (measurementTimestamp s)
    (stack_temperature s) (stack_humidity s)
    (timer s) (rgb s) (clock s) (esp8266 s) (log s).
Definition set_countTrueCommand v s :=
  mkSketch (timerId s) (lastCO2Threshold s) v (found s) (co2Level s)
    (buzzerDuration s) (lastSendTime s) (ledStartTime s) (ledOn s) (measurementTimestamp s)
    (stack_temperature s) (stack_humidity s)
    (timer s) (rgb s) (clock s) (esp8266 s) (log s).
Definition set_found v s :=
  mkSketch (timerId s) (lastCO2Threshold s) (countTrueCommand s) v (co2Level s)
    (buzzerDuration s) (lastSendTime s) (ledStartTime s) (ledOn s) (measurementTimestamp s)
    (stack_temperature s) (stack_humidity s)
    (timer s) (rgb s) (clock s) (esp8266 s) (log s).
Definition set_co2Level v s :=
  mkSketch (timerId s) (lastCO2Threshold s) (countTrueCommand s) (found s) v
    (buzzerDuration s) (lastSendTime s) (ledStartTime s) (ledOn s) (measurementTimestamp s)
    (stack_temperature s) (stack_humidity s)
    (timer s) (rgb s) (clock s) (esp8266 s) (log s).
Definition set_buzzerDuration v s :=
  mkSketch (timerId s) (lastCO2Threshold s) (countTrueCommand s) (found s) (co2Level s)
    v (lastSendTime s) (ledStartTime s) (ledOn s) (measurementTimestamp s)
    (stack_temperature s) (stack_humidity s)
    (timer s) (rgb s) (clock s) (esp8266 s) (log s).
Definition set_lastSendTime v s :=
  mkSketch (timerId s) (lastCO2Threshold s) (countTrueCommand s) (found s) (co2Level s)
    (buzzerDuration s) v (ledStartTime s) (ledOn s) (measurementTimestamp s)
    (stack_temperature s) (stack_humidity s)
    (timer s) (rgb s) (clock s) (esp8266 s) (log s).
Definition set_ledStartTime v s :=
  mkSketch (timerId s) (lastCO2Threshold s) (countTrueCommand s) (found s) (co2Level s)
    (buzzerDuration s) (lastSendTime s) v (ledOn s) (measurementTimestamp s)
    (stack_temperature s) (stack_humidity s)
    (timer s) (rgb s) (clock s) (esp8266 s) (log s).
Definition set_ledOn v s :=
  mkSketch (timerId s) (lastCO2Threshold s) (countTrueCommand s) (found s) (co2Level s)
    (buzzerDuration s) (lastSendTime s) (ledStartTime s) v (measurementTimestamp s)
    (stack_temperature s) (stack_humidity s)
    (timer s) (rgb s) (clock s) (esp8266 s) (log s).
Definition set_measurementTimestamp v s :=
  mkSketch (timerId s) (lastCO2Threshold s) (countTrueCommand s) (found s) (co2Level s)
    (buzzerDuration s) (lastSendTime s) (ledStartTime s) (ledOn s) v
    (stack_temperature s) (stack_humidity s)
    (timer s) (rgb s) (clock s) (esp8266 s) (log s).
Definition set_stack_temperature v s :=
  mkSketch (timerId s) (lastCO2Threshold s) (countTrueCommand s) (found s) (co2Level s)
    (buzzerDuration s) (lastSendTime s) (ledStartTime s) (ledOn s) (measurementTimestamp s)
    v (stack_humidity s)
    (timer s) (rgb s) (clock s) (esp8266 s) (log s).
Definition set_stack_humidity v s :=
  mkSketch (timerId s) (lastCO2Threshold s) (countTrueCommand s) (found s) (co2Level s)
    (buzzerDuration s) (lastSendTime s) (ledStartTime s) (ledOn s) (measurementTimestamp s)
    (stack_temperature s) v
    (timer s) (rgb s) (clock s) (esp8266 s) (log s).
Definition set_timer v s :=
  mkSketch (timerId s) (lastCO2Threshold s) (countTrueCommand s) (found s) (co2Level s)
    (buzzerDuration s) (lastSendTime s) (ledStartTime s) (ledOn s) (measurementTimestamp s)
    (stack_temperature s) (stack_humidity s)
    v (rgb s) (clock s) (esp8266 s) (log s).
Definition set_rgb v s :=
  mkSketch (timerId s) (lastCO2Threshold s) (countTrueCommand s) (found s) (co2Level s)
    (buzzerDuration s) (lastSendTime s) (ledStartTime s) (ledOn s) (measurementTimestamp s)
    (stack_temperature s) (stack_humidity s)
    (timer s) v (clock s) (esp8266 s) (log s).
Definition set_clock v s :=
  mkSketch (timerId s) (lastCO2Threshold s) (countTrueCommand s) (found s) (co2Level s)
    (buzzerDuration s) (lastSendTime s) (ledStartTime s) (ledOn s) (measurementTimestamp s)
    (stack_temperature s) (stack_humidity s)
    (timer s) (rgb s) v (esp8266 s) (log s).
Definition set_esp8266 v s :=
  mkSketch (timerId s) (lastCO2Threshold s) (countTrueCommand s) (found s) (co2Level s)
    (buzzerDuration s) (lastSendTime s) (ledStartTime s) (ledOn s) (measurementTimestamp s)
    (stack_temperature s) (stack_humidity s)
    (timer s) (rgb s) (clock s) v (log s).
Definition set_log v s :=
  mkSketch (timerId s) (lastCO2Threshold s) (countTrueCommand s) (found s) (co2Level s)
    (buzzerDuration s) (lastSendTime s) (ledStartTime s) (ledOn s) (measurementTimestamp s)
    (stack_temperature s) (stack_humidity s)
    (timer s) (rgb s) (clock s) (esp8266 s) v.

(** The globals and statics as the sketch initialises them, at time [t0] with
    the link in state [l0]. *)
Definition power_on (t0 : Z) (l0 : L) : Sketch :=
  mkSketch (-1) (-2) 0 false 0
    0 0 0 false None
    Unassigned Unassigned
    SimpleTimer.empty (mkRgb 0 0 0) t0 l0 [].

(** ** Hardware calls *)

Definition emit (e : Event) (s : Sketch) : Sketch := set_log (log s ++ [e]) s.

Definition analogWrite (pin value : Z) (s : Sketch) : Sketch :=
  if pin =? RED then set_rgb (mkRgb value (green (rgb s)) (blue (rgb s))) s
  else if pin =? GREEN then set_rgb (mkRgb (red (rgb s)) value (blue (rgb s))) s
  else if pin =? BLUE then set_rgb (mkRgb (red (rgb s)) (green (rgb s)) value) s
  else s.

Definition tone (pin frequency duration : Z) (s : Sketch) : Sketch :=
  emit (Tone pin frequency duration) s.

Definition noTone (pin : Z) (s : Sketch) : Sketch := emit (NoTone pin) s.

Definition delay (ms : Z) (s : Sketch) : Sketch := set_clock (clock s + ms) s.

(** Time passing between two passes of [loop]. *)
Definition elapse (ms : Z) (s : Sketch) : Sketch := set_clock (clock s + ms) s.

(** Between two passes the stack above the frame of [loop] is used by other
    code, which may leave anything in the places of its locals. *)
Definition scribble (temperature humidity : Local float) (s : Sketch) : Sketch :=
  set_stack_humidity humidity (set_stack_temperature temperature s).

(** ** [buzzerManager] *)

Definition buzzerManager (s : Sketch) : Sketch :=
  let s1 := set_buzzerDuration (selectDuration (co2Level s) (buzzerDuration s)) s in
  tone 14 NOTE_C5 (buzzerDuration s1) s1.

(** ** [ledBlink] *)

Definition ledBlink (co2Level : Z) (s : Sketch) : Sketch :=
  if 500 <=? ulong_sub (millis (clock s)) (ledStartTime s) then
    let s1 := set_ledOn (negb (ledOn s)) s in
    let s2 := set_ledStartTime (to_long (millis (clock s1))) s1 in
    if ledOn s2 then
      if (30000 <=? co2Level) || (co2Level <=? 0)
      then analogWrite BLUE 0 (analogWrite GREEN 0 (analogWrite RED 255 s2))
      else analogWrite BLUE 0 (analogWrite GREEN 100 (analogWrite RED 255 s2))
    else analogWrite BLUE 0 (analogWrite GREEN 0 (analogWrite RED 0 s2))
  else s.

(** What a branch of the chain does to the indicator. *)
Definition indicate (i : Indicator) (ppm : Z) (s : Sketch) : Sketch :=
  match i with
  | Steady quiet r g b =>
      let s1 := if quiet then noTone 14 s else s in
      analogWrite BLUE b (analogWrite GREEN g (analogWrite RED r s1))
  | Blinking => ledBlink ppm s
  | Untouched => s
  end.

(** ** Buzzer system of [loop], lines 174-202 *)

Definition timer_setInterval (d : Z) (s : Sketch) : Sketch :=
  let '(id, tm) := SimpleTimer.setInterval d (clock s) (timer s) in
  set_timerId id (emit (SetInterval d id) (set_timer tm s)).

Definition timer_deleteTimer (id : Z) (s : Sketch) : Sketch :=
  emit (DeleteTimer id) (set_timer (SimpleTimer.deleteTimer id (timer s)) s).

(** [if(timerId != -1) { timer.deleteTimer(timerId); timerId = -1; }] *)
Definition cancelTimer (s : Sketch) : Sketch :=
  if negb (timerId s =? -1)
  then set_timerId (-1) (timer_deleteTimer (timerId s) s)
  else s.

(** The [switch] on [currentCO2Threshold]. *)
Definition armTimer (currentCO2Threshold : Z) (s : Sketch) : Sketch :=
  match alarmPeriod currentCO2Threshold with
  | Some d => timer_setInterval d s
  | None => s
  end.

Definition buzzerSystem (currentCO2Threshold : Z) (s : Sketch) : Sketch :=
  if negb (currentCO2Threshold =? lastCO2Threshold s) then
    let s1 := cancelTimer s in
    let s2 := buzzerManager s1 in
    let s3 := armTimer currentCO2Threshold s2 in
    set_lastCO2Threshold currentCO2Threshold s3
  else s.

(** [timer.run()]: every due timer calls [buzzerManager]. *)
Definition timer_run (s : Sketch) : Sketch :=
  let '(k, tm) := SimpleTimer.run (clock s) (timer s) in
  Nat.iter k buzzerManager (set_timer tm s).

(** ** [sendCommand] *)

(** The [while] loop of [sendCommand].  [fuel] bounds the number of calls to
    [find]; [None] stands for a loop that has not ended within it. *)
Fixpoint awaitResponse (fuel : nat) (startTime maxTime : Z) (readResponse : string)
    (s : Sketch) : option Sketch :=
  if ulong_sub (millis (clock s)) startTime <? to_ulong maxTime then
    match fuel with
    | O => None
    | S fuel' =>
        let '(hit, t', l') := stream_find readResponse (clock s) (esp8266 s) in
        let s' := set_esp8266 l' (set_clock t' s) in
        if hit then Some (set_found true s')
        else awaitResponse fuel' startTime maxTime readResponse s'
    end
  else Some s.

Definition sendCommand (fuel : nat) (command : string) (maxTime : Z)
    (readResponse : string) (s : Sketch) : option Sketch :=
  let s1 := emit (SerialPrintInt (countTrueCommand s)) s in
  let s2 := emit (SerialPrint ". at command =>") s1 in
  let s3 := emit (SerialPrint "") s2 in
  let s4 := set_esp8266 (stream_println command (esp8266 s3)) s3 in
  let startTime := to_long (millis (clock s4)) in
  match awaitResponse fuel startTime maxTime readResponse s4 with
  | None => None
  | Some s5 =>
      let s6 := if found s5
                then set_countTrueCommand (countTrueCommand s5 + 1)
                       (emit (SerialPrint (command ++ ": OK" ++ crlf)) s5)
                else s5 in
      let s7 := if negb (found s6)
                then emit (SerialPrint (command ++ ": FAIL")) s6
                else s6 in
      Some (set_found false s7)
  end.

(** ** [connectToWiFi] and [sendToThingSpeak] *)

Definition connectToWiFi (fuel : nat) (s : Sketch) : option Sketch :=
  s1 <- sendCommand fuel "AT" 2000 "OK" s ;;
  s2 <- sendCommand fuel "AT+CWMODE=1" 2000 "OK" s1 ;;
  sendCommand fuel
    ("AT+CWJAP=" ++ dquote ++ WIFI_SSID ++ dquote ++ "," ++ dquote ++ WIFI_PASS ++ dquote)
    10000 "OK" s2.

Definition request_of (temperature humidity : Local float) (co2 : Z) : string :=
  "GET /update?api_key=" ++ API ++ "&field1=" ++ String_of_float temperature ++
  "&field2=" ++ String_of_float humidity ++ "&field3=" ++ String_of_int co2 ++ crlf.

Definition sendToThingSpeak (fuel : nat) (temperature humidity : Local float) (co2 : Z)
    (s : Sketch) : option Sketch :=
  let s0 := emit (CallSendToThingSpeak temperature humidity co2) s in
  let request := request_of temperature humidity co2 in
  s1 <- sendCommand fuel
          ("AT+CIPSTART=" ++ dquote ++ "TCP" ++ dquote ++ "," ++ dquote ++ HOST ++ dquote
             ++ "," ++ PORT) 4000 "OK" s0 ;;
  s2 <- sendCommand fuel
          ("AT+CIPSEND=" ++ String_of_int (Z.of_nat (String.length request) + 2)) 2000 ">" s1 ;;
  let s3 := set_esp8266 (stream_print request (esp8266 s2)) s2 in
  let s4 := delay 1500 s3 in
  sendCommand fuel "AT+CIPCLOSE" 2000 "OK" s4.

(** ** [measureEnvironment]

    The static [measurementTimestamp] is initialised with [millis()] by the
    first call.  [dht] is what [dht_sensor.measure] would deliver when asked:
    a pair of values, or nothing. *)
Definition measureEnvironment (dht : option (float * float))
    (temperature humidity : Local float) (s : Sketch)
    : bool * Local float * Local float * Sketch :=
  let stamp := match measurementTimestamp s with
               | Some ts => ts
               | None => millis (clock s)
               end in
  let s1 := set_measurementTimestamp (Some stamp) s in
  if 3000 <? ulong_sub (millis (clock s1)) stamp then
    match dht with
    | Some (t, h) =>
        (true, Assigned t, Assigned h, set_measurementTimestamp (Some (millis (clock s1))) s1)
    | None => (false, temperature, humidity, s1)
    end
  else (false, temperature, humidity, s1).

(** ** [loop]

    [co2] is the reading of this pass: [Some ppm] when [co2_sensor.measure()]
    succeeds with [co2_sensor.ppm = ppm]. *)

Definition telemetry (fuel : nat) (temperature humidity : Local float) (ppm : Z)
    (s : Sketch) : option Sketch :=
  let sendInterval := 15000 in
  if to_ulong sendInterval <=? ulong_sub (millis (clock s)) (lastSendTime s) then
    s1 <- sendToThingSpeak fuel temperature humidity ppm s ;;
    Some (set_lastSendTime (to_long (millis (clock s1))) s1)
  else Some s.

(** "alert system and ThingSpeak updates logic", lines 118-171: the reading is
    stored and displayed, the chain sets the indicator and, in its outer
    [else], runs the update.  The field [co2_sensor.ppm] is displayed and
    compared as it is; it is converted where it is assigned to [int co2Level]
    and where it is passed to the [int] parameters of [ledBlink] and
    [sendToThingSpeak].  The result is [currentCO2Threshold] and the state
    handed to the buzzer system. *)
Definition alertAndUpdate (fuel : nat) (temperature humidity : Local float) (ppm : Z)
    (s : Sketch) : option (Z * Sketch) :=
  let s1 := set_co2Level (to_int ppm) s in
  let s2 := emit (LcdPrint "  ")
              (emit (LcdPrint "ppm") (emit (LcdPrint "  ") (emit (LcdPrintInt ppm) s1))) in
  let '(currentCO2Threshold, ind, inElse) := band ppm in
  let s3 := indicate ind (to_int ppm) s2 in
  s4 <- (if inElse then telemetry fuel temperature humidity (to_int ppm) s3 else Some s3) ;;
  Some (currentCO2Threshold, s4).

(** The body of [if(co2_sensor.measure())]. *)
Definition onReading (fuel : nat) (temperature humidity : Local float) (ppm : Z)
    (s : Sketch) : option Sketch :=
  r <- alertAndUpdate fuel temperature humidity ppm s ;;
  Some (buzzerSystem (fst r) (snd r)).

(** [temperature] and [humidity] start with what their places on the stack
    hold; [measureEnvironment] stores through the pointers it is given, and
    what the locals hold at the end of the pass stays on the stack. *)
Definition loop (fuel : nat) (co2 : option Z) (dht : option (float * float))
    (s : Sketch) : option Sketch :=
  let temperature : Local float := stack_temperature s in
  let humidity : Local float := stack_humidity s in
  let s1 := emit (LcdSetCursor 0 0) s in
  let s2 := timer_run s1 in
  s3 <- match co2 with
        | Some ppm => onReading fuel temperature humidity ppm s2
        | None => Some s2
        end ;;
  let '(ok, temperature', humidity', s4) := measureEnvironment dht temperature humidity s3 in
  let s5 := set_stack_humidity humidity' (set_stack_temperature temperature' s4) in
  if ok then
    Some (emit (LcdPrint "%")
           (emit (LcdPrintFloat humidity' 0)
             (emit (LcdPrint " H = ")
               (emit (LcdPrint "C")
                 (emit (LcdPrintChar 223)
                   (emit (LcdPrintFloat temperature' 0)
                     (emit (LcdPrint "T = ")
                       (emit (LcdSetCursor 0 1) s5))))))))
  else Some s5.

(** [setup]: the LED glows blue, then the link is brought up. *)
Definition setup (fuel : nat) (s : Sketch) : option Sketch :=
  let s1 := analogWrite BLUE 255 (analogWrite GREEN 0 (analogWrite RED 0 s)) in
  connectToWiFi fuel s1.

End Device.

(** ** Links used to run the sketch

    [Unplugged]: nothing ever arrives; every [find] gives up after the
    stream's default timeout of one second.  The state records what was
    written. *)

Definition STREAM_TIMEOUT : Z := 1000.

Record Unplugged : Type := mkUnplugged { written : string }.

#[export] Instance unplugged_stream : Stream Unplugged := {
  stream_print := fun text l => mkUnplugged (written l ++ text);
  stream_println := fun text l => mkUnplugged (written l ++ text ++ crlf);
  stream_find := fun _ now l => (false, now + STREAM_TIMEOUT, l)
}.

(** [Modem]: a module that answers every [find] with the expected text after
    [MODEM_LATENCY] ms.  The state records what was written. *)

Definition MODEM_LATENCY : Z := 50.

Record Modem : Type := mkModem { sent : string }.

#[export] Instance modem_stream : Stream Modem := {
  stream_print := fun text l => mkModem (sent l ++ text);
  stream_println := fun text l => mkModem (sent l ++ text ++ crlf);
  stream_find := fun _ now l => (true, now + MODEM_LATENCY, l)
}.

(** [Sluggish]: a module whose answer is late.  The first [silent] calls of
    [find] give up after the stream's timeout; the next one answers, after
    [SLUGGISH_LATENCY] ms. *)

Definition SLUGGISH_LATENCY : Z := 1500.

Record Sluggish : Type := mkSluggish { silent : nat; received : string }.

#[export] Instance sluggish_stream : Stream Sluggish := {
  stream_print := fun text l => mkSluggish (silent l) (received l ++ text);
  stream_println := fun text l => mkSluggish (silent l) (received l ++ text ++ crlf);
  stream_find := fun _ now l =>
    match silent l with
    | O => (true, now + SLUGGISH_LATENCY, l)
    | S k => (false, now + STREAM_TIMEOUT, mkSluggish k (received l))
    end
}.

(** [Wire]: the inbound characters with their arrival times, in order.
    [find] follows the Arduino core: it reads one character at a time, waits
    up to the stream timeout for each of them, and returns [true] as soon as
    the characters read by this call end with the target. *)

Record Wire : Type := mkWire { inbound : list (Z * ascii); outbound : string }.

Definition ends_with (target seen : string) : bool :=
  let n := String.length target in
  let m := String.length seen in
  (n <=? m)%nat && String.eqb (substring (m - n) n seen) target.

Fixpoint scan (target seen : string) (now : Z) (inb : list (Z * ascii))
    : bool * Z * list (Z * ascii) :=
  match inb with
  | [] => (false, now + STREAM_TIMEOUT, [])
  | (arrival, c) :: rest =>
      if now + STREAM_TIMEOUT <=? arrival then (false, now + STREAM_TIMEOUT, inb)
      else
        let now' := Z.max now arrival in
        let seen' := (seen ++ String c EmptyString)%string in
        if ends_with target seen' then (true, now', rest)
        else scan target seen' now' rest
  end.

Definition wire_find (target : string) (now : Z) (w : Wire) : bool * Z * Wire :=
  match target with
  | EmptyString => (true, now, w)
  | _ =>
      let '(hit, now', rest) := scan target EmptyString now (inbound w) in
      (hit, now', mkWire rest (outbound w))
  end.

#[export] Instance wire_stream : Stream Wire := {
  stream_print := fun text w => mkWire (inbound w) (outbound w ++ text);
  stream_println := fun text w => mkWire (inbound w) (outbound w ++ text ++ crlf);
  stream_find := wire_find
}.


(** The DHT11 delivers whole numbers; [String(x)] prints two decimals. *)
#[export] Instance whole_readings : FloatText Z := {
  String_of_float := fun x =>
    match x with
    | Assigned v => (String_of_int v ++ ".00")%string
    | Unassigned => "0.00"%string
    end
}.

(** ** Observations on the log *)

Section Observations.

Context {float : Type}.

Definition is_upload (e : @Event float) : bool :=
  match e with CallSendToThingSpeak _ _ _ => true | _ => false end.

Definition is_alarm (e : @Event float) : bool :=
  match e with
  | Tone _ _ _ | DeleteTimer _ | SetInterval _ _ => true
  | _ => false
  end.

Definition is_serial (e : @Event float) : bool :=
  match e with SerialPrint _ | SerialPrintInt _ => true | _ => false end.

(** Number of entries into [sendToThingSpeak]. *)
Definition uploads (evs : list (@Event float)) : nat := List.length (filter is_upload evs).

(** The tone, cancel and arm calls, in order. *)
Definition alarm_events (evs : list (@Event float)) : list (@Event float) := filter is_alarm evs.

End Observations.

(** Passes of [loop] separated by pauses: each input is the pause before the
    pass, the CO2 reading and the DHT11 reading of the pass. *)
Fixpoint passes {float L : Type} {link : Stream L} {ftext : FloatText float}
    (fuel : nat) (inputs : list (Z * option Z * option (float * float)))
    (s : @Sketch float L) : option (@Sketch float L) :=
  match inputs with
  | [] => Some s
  | (pause, co2, dht) :: rest =>
      s' <- loop fuel co2 dht (elapse pause s) ;;
      passes fuel rest s'
  end.

(** Calls of [ledBlink] at the given times; the result is the number of calls
    that toggled the LED and the state afterwards. *)
Fixpoint blinkAt {float L : Type} (co2Level : Z) (times : list Z) (s : @Sketch float L)
    : nat * @Sketch float L :=
  match times with
  | [] => (O, s)
  | t :: rest =>
      let s1 := ledBlink co2Level (set_clock t s) in
      let '(k, s2) := blinkAt co2Level rest s1 in
      ((if Bool.eqb (ledOn s1) (ledOn s) then k else S k), s2)
  end.

(** [n] call times [start, start + period, ...]. *)
Fixpoint every (period start : Z) (n : nat) : list Z :=
  match n with
  | O => []
  | S m => start :: every period (start + period) m
  end.

(** States in which the alarm state machine can be found: at power-on, after
    [setup], between two passes of [loop], and inside a pass at the point
    where the buzzer system compares the new level with the last one,
    whatever the locals of the pass hold. *)
Inductive reachable {float L : Type} {link : Stream L} {ftext : FloatText float}
    : @Sketch float L -> Prop :=
| reach_power_on : forall t0 l0, reachable (power_on t0 l0)
| reach_setup : forall fuel s s', reachable s -> setup fuel s = Some s' -> reachable s'
| reach_elapse : forall ms s, reachable s -> reachable (elapse ms s)
| reach_scribble : forall temperature humidity s,
    reachable s -> reachable (scribble temperature humidity s)
| reach_reading : forall fuel temperature humidity ppm s level s',
    reachable s ->
    alertAndUpdate fuel temperature humidity ppm (timer_run (emit (LcdSetCursor 0 0) s))
      = Some (level, s') ->
    reachable s'
| reach_loop : forall fuel co2 dht s s',
    reachable s -> loop fuel co2 dht s = Some s' -> reachable s'.

(** The spec's names for the values of [currentCO2Threshold]. *)
Definition Normal : Z := 0.
Definition Elevated : Z := 1.
Definition High : Z := 2.
Definition Severe : Z := 3.
Definition Critical : Z := 4.
Definition Extreme : Z := 5.

(** At most one slot of the timer table is taken, and [timerId] names it. *)
Definition one_timer {float L : Type} (s : @Sketch float L) : Prop :=
  (timerId s = -1 /\ timer s = SimpleTimer.empty) \/
  (timerId s = 0 /\ exists sl, timer s = Some sl :: repeat None 9).

(** The sketch at power-on with nothing connected to the serial pins, and with
    a wire that delivers the given characters. *)
Definition bench : @Sketch Z Unplugged := power_on 0 (mkUnplugged EmptyString).


Definition answering : @Sketch Z Modem := power_on 0 (mkModem EmptyString).


(** The last call of the log. *)
Definition last_call {float L : Type} (s : @Sketch float L) : option (@Event float) :=
  List.last (map Some (log s)) None.

(** The tone, cancel and arm calls logged by a run, if it ends. *)
Definition alarm_calls {float L : Type} (r : option (@Sketch float L))
    : option (list (@Event float)) :=
  option_map (fun s => alarm_events (log s)) r.

(** ** Views of a state *)

Section Views.

Context {float : Type} {L : Type}.

(** Everything but the link, the clock, the command counter, [found] and the
    log. *)
Definition core (s : @Sketch float L) :=
  (timerId s, lastCO2Threshold s, co2Level s, buzzerDuration s, lastSendTime s,
   (ledStartTime s, ledOn s, measurementTimestamp s, timer s, rgb s)).

Definition all_serial (evs : list (@Event float)) : Prop := forallb is_serial evs = true.

(** A step that makes no tone, cancels nothing and arms nothing. *)
Definition quiet (s s' : @Sketch float L) : Prop :=
  timerId s' = timerId s /\ lastCO2Threshold s' = lastCO2Threshold s /\
  co2Level s' = co2Level s /\ buzzerDuration s' = buzzerDuration s /\
  timer s' = timer s /\ alarm_events (log s') = alarm_events (log s).

(** The calls of a severity change, in order, from a state that satisfies
    [one_timer]: the cancel of the live timer if there is one, the pulse, and
    the arming of the new timer if the level has one. *)
Definition transition_calls (thr : Z) (s : @Sketch float L) : list (@Event float) :=
  (if timerId s =? -1 then [] else [DeleteTimer (timerId s)]) ++
  [Tone 14 NOTE_C5 (selectDuration (co2Level s) (buzzerDuration s))] ++
  match alarmPeriod thr with
  | Some d => [SetInterval d 0]
  | None => []
  end.

(** The four lines of the debug monitor for one command. *)
Definition report (count : Z) (command verdict : string) : list (@Event float) :=
  [SerialPrintInt count; SerialPrint ". at command =>"; SerialPrint "";
   SerialPrint (command ++ verdict)].

Definition no_upload (evs : list (@Event float)) : Prop :=
  forallb (fun e => negb (is_upload e)) evs = true.

(** A step that uses neither the link nor the clock and uploads nothing. *)
Definition offline (s s' : @Sketch float L) : Prop :=
  clock s' = clock s /\ lastSendTime s' = lastSendTime s /\ found s' = found s /\
  exists evs, log s' = log s ++ evs /\ no_upload evs.

(** The test of [loop] that lets a reading of [ppm] reach [sendToThingSpeak]. *)
Definition gate_open (ppm : Z) (s : @Sketch float L) : bool :=
  (2500 <=? ppm) && (15000 <=? ulong_sub (millis (clock s)) (lastSendTime s)).

(** What a pass that sees a reading of [ppm] does about the upload, on a link
    whose [find] takes at most [D] ms; the upload is given the [int] copy of
    the reading. *)
Definition upload_outcome (D : Z) (temperature humidity : Local float) (ppm : Z)
    (s s' : @Sketch float L) : Prop :=
  if gate_open ppm s
  then lastSendTime s' = to_long (millis (clock s')) /\
       clock s + 1500 <= clock s' <= clock s + 9500 + 3 * D /\
       exists pre post,
         log s' = log s ++ pre ++
                  CallSendToThingSpeak temperature humidity (to_int ppm) :: post /\
         no_upload pre /\ no_upload post
  else offline s s'.

(** The periods of the live timers of the table. *)
Definition live_periods (tm : SimpleTimer.t) : list Z :=
  flat_map (fun x => match x with
                     | Some sl => [SimpleTimer.delay sl]
                     | None => []
                     end) tm.

End Views.

(** ** The polling loop of [sendCommand], seen from the link

    [in_time] is the test of the [while] loop against the stamp taken after
    the write.  [polled n readResponse startTime maxTime now l] is the time
    and the link after [n] calls of [find], the first of them made at time
    [now] on the link [l], when each call was started with the test of the
    loop passing and each gave [false]; it is [None] when the loop does not
    make [n] such calls. *)



(** ** Further views: what is written, displayed and armed *)

(** The commands of [sendToThingSpeak] and [connectToWiFi], as the sketch
    builds them. *)
Definition CIPSTART : string :=
  "AT+CIPSTART=" ++ dquote ++ "TCP" ++ dquote ++ "," ++ dquote ++ HOST ++ dquote
    ++ "," ++ PORT.

Definition CWJAP : string :=
  "AT+CWJAP=" ++ dquote ++ WIFI_SSID ++ dquote ++ "," ++ dquote ++ WIFI_PASS ++ dquote.

Section MoreViews.

Context {float : Type} {L : Type}.

Definition is_float_print (e : @Event float) : bool :=
  match e with LcdPrintFloat _ _ => true | _ => false end.

Definition no_float_print (evs : list (@Event float)) : Prop :=
  forallb (fun e => negb (is_float_print e)) evs = true.

(** A step that prints no temperature and no humidity. *)
Definition blank (s s' : @Sketch float L) : Prop :=
  exists evs, log s' = log s ++ evs /\ no_float_print evs.

(** The second row of the display after a measurement. *)
Definition environment_line (temperature humidity : Local float) : list (@Event float) :=
  [LcdSetCursor 0 1; LcdPrint "T = "; LcdPrintFloat temperature 0; LcdPrintChar 223;
   LcdPrint "C"; LcdPrint " H = "; LcdPrintFloat humidity 0; LcdPrint "%"].

(** [lastCO2Threshold] is the sentinel or a level. *)
Definition level_known (s : @Sketch float L) : Prop :=
  lastCO2Threshold s = -2 \/ 0 <= lastCO2Threshold s <= 5.

(** The live timer is the one of the recorded level. *)
Definition timer_matches_level (s : @Sketch float L) : Prop :=
  live_periods (timer s) =
    match alarmPeriod (lastCO2Threshold s) with
    | Some d => [d]
    | None => []
    end.

(** The three facts that every step of a run keeps. *)
Definition steady (s : @Sketch float L) : Prop :=
  one_timer s /\ level_known s /\ timer_matches_level s.

End MoreViews.

(** * Properties *)

(** ** 32-bit arithmetic *)

Lemma to_int_range : forall x, - 2 ^ 15 <= to_int x < 2 ^ 15.
Proof.
  intros x. unfold to_int.
  pose proof (Z.mod_pos_bound (x + 2 ^ 15) (2 ^ 16) ltac:(lia)). lia.
Qed.

(** A value in the range of [int] is converted to itself. *)
Lemma to_int_small : forall x, - 2 ^ 15 <= x < 2 ^ 15 -> to_int x = x.
Proof.
  intros x Hx. unfold to_int. rewrite Z.mod_small by lia. lia.
Qed.

(** A value of the upper half of the 16-bit range becomes negative. *)
Lemma to_int_overrange : forall x, 2 ^ 15 <= x < 2 ^ 16 -> to_int x = x - 2 ^ 16.
Proof.
  intros x Hx. unfold to_int.
  rewrite <- (Z.mod_unique (x + 2 ^ 15) (2 ^ 16) 1 (x - 2 ^ 15)); lia.
Qed.

Lemma to_ulong_range : forall x, 0 <= to_ulong x < 2 ^ 32.
Proof. intros x. unfold to_ulong. apply Z.mod_pos_bound. lia. Qed.

Lemma to_ulong_small : forall x, 0 <= x < 2 ^ 32 -> to_ulong x = x.
Proof. intros x Hx. unfold to_ulong. apply Z.mod_small. exact Hx. Qed.

Lemma to_ulong_to_long : forall x, to_ulong (to_long x) = to_ulong x.
Proof.
  intros x. unfold to_ulong, to_long.
  rewrite Zminus_mod, Z.mod_mod by lia.
  rewrite <- Zminus_mod.
  f_equal. lia.
Qed.

(** The stamp taken at time [t0] and read back at time [t] gives the time
    elapsed, modulo [2 ^ 32]. *)
Lemma elapsed_since_stamp : forall t t0,
  ulong_sub (millis t) (to_long (millis t0)) = to_ulong (t - t0).
Proof.
  intros t t0. unfold ulong_sub, millis.
  unfold to_ulong at 1.
  rewrite Zminus_mod.
  fold (to_ulong (to_long (to_ulong t0))).
  rewrite to_ulong_to_long.
  unfold to_ulong.
  rewrite !Z.mod_mod by lia.
  rewrite <- Zminus_mod. reflexivity.
Qed.

Lemma elapsed_since_stamp_small : forall t t0,
  0 <= t - t0 < 2 ^ 32 ->
  ulong_sub (millis t) (to_long (millis t0)) = t - t0.
Proof.
  intros t t0 H. rewrite elapsed_since_stamp. apply to_ulong_small. exact H.
Qed.

(** ** The threshold chain *)

Ltac split_ands :=
  repeat match goal with |- _ /\ _ => split end.

Ltac split_comparisons :=
  repeat match goal with
  | |- context [?a <? ?b] => destruct (Z.ltb_spec a b)
  | |- context [?a <=? ?b] => destruct (Z.leb_spec a b)
  | |- context [?a =? ?b] => destruct (Z.eqb_spec a b)
  end.

Lemma band_cases : forall ppm,
  band ppm =
    if ppm <? 1000 then (0, Steady true 0 255 0, false)
    else if ppm <? 2500 then (1, Blinking, false)
    else if ppm <? 5000 then (2, Steady false 255 100 0, true)
    else if ppm <? 10000 then (3, Blinking, true)
    else if ppm <? 30000 then (4, Steady false 255 0 0, true)
    else (5, Blinking, true).
Proof.
  intros ppm. unfold band. split_comparisons; simpl; try reflexivity; lia.
Qed.

(** No table of levels can give both [Normal] below 1000 ppm and [Extreme] at
    or below 0 ppm. *)
Lemma normal_and_extreme_overlap :
  ~ exists f : Z -> Z,
      forall ppm, (ppm < 1000 -> f ppm = Normal) /\ (ppm <= 0 -> f ppm = Extreme).
Proof.
  intros [f Hf]. destruct (Hf 0) as [Hn He].
  rewrite Hn in He by lia. specialize (He ltac:(lia)). discriminate.
Qed.

(** C1, as stated, fails at one reading: 0 ppm is at or below 0, and the
    chain of [loop] gives it [currentCO2Threshold = 0] (Normal), not 5
    (Extreme). *)
Lemma classify_zero_is_normal :
  0 <= 0 /\ classify 0 = Normal /\ classify 0 <> Extreme.
Proof. vm_compute. repeat split; try reflexivity; try discriminate. Qed.

(** C1, amended: a reading of the sensor is not negative, and its
    classification is a total function of it: every reading below 1000 ppm,
    zero included, is Normal, [1000, 2500) is Elevated, [2500, 5000) is High,
    [5000, 10000) is Severe, [10000, 30000) is Critical and every reading from
    30000 ppm up is Extreme, so a reading on a boundary is in the higher band
    and the fall-through value -1 is never produced.  Sensor overrange is
    covered by the last band: a reading whose [int] copy is negative is at
    least 32768 ppm, and it is Extreme. *)
Theorem classify_table : forall ppm : Z,
  0 <= ppm ->
  (ppm < 1000 -> classify ppm = Normal) /\
  (1000 <= ppm < 2500 -> classify ppm = Elevated) /\
  (2500 <= ppm < 5000 -> classify ppm = High) /\
  (5000 <= ppm < 10000 -> classify ppm = Severe) /\
  (10000 <= ppm < 30000 -> classify ppm = Critical) /\
  (30000 <= ppm -> classify ppm = Extreme) /\
  Normal <= classify ppm <= Extreme /\
  (to_int ppm < 0 -> 32768 <= ppm /\ classify ppm = Extreme).
Proof.
  intros ppm Hppm.
  assert (Hover : to_int ppm < 0 -> 32768 <= ppm).
  { intros Hneg. destruct (Z.lt_ge_cases ppm 32768) as [Hs|Hs]; [| exact Hs].
    rewrite to_int_small in Hneg by lia. lia. }
  unfold classify. rewrite band_cases.
  unfold Normal, Elevated, High, Severe, Critical, Extreme.
  split_comparisons; simpl; repeat split; intros; try lia;
    try (apply Hover; assumption);
    match goal with H : to_int ppm < 0 |- _ => apply Hover in H; lia end.
Qed.

Lemma classify_table_witness :
  classify 0 = Normal /\ classify 999 = Normal /\ classify 1000 = Elevated /\
  classify 2499 = Elevated /\ classify 2500 = High /\ classify 4999 = High /\
  classify 5000 = Severe /\ classify 9999 = Severe /\ classify 10000 = Critical /\
  classify 29999 = Critical /\ classify 30000 = Extreme /\
  (to_int 50001 = -15535 /\ classify 50001 = Extreme).
Proof.
  split_ands.
  - apply (classify_table 0); lia.
  - apply (classify_table 999); lia.
  - apply (classify_table 1000); lia.
  - apply (classify_table 2499); lia.
  - apply (classify_table 2500); lia.
  - apply (classify_table 4999); lia.
  - apply (classify_table 5000); lia.
  - apply (classify_table 9999); lia.
  - apply (classify_table 10000); lia.
  - apply (classify_table 29999); lia.
  - destruct (classify_table 30000) as (_ & _ & _ & _ & _ & H & _); [lia |].
    apply H. lia.
  - reflexivity.
  - destruct (classify_table 50001) as (_ & _ & _ & _ & _ & _ & _ & H); [lia |].
    apply H. reflexivity.
Defined.

(** The ThingSpeak branch of the chain is the branch of the readings from
    2500 ppm up, that is of the levels from High up. *)
Lemma band_telemetry : forall ppm,
  snd (band ppm) = (2500 <=? ppm) /\ snd (band ppm) = (High <=? classify ppm).
Proof.
  intros ppm. unfold classify, High. rewrite band_cases.
  repeat match goal with
  | |- context [?a <? ?b] => destruct (Z.ltb_spec a b)
  end; simpl; split; symmetry;
  first [apply Z.leb_le; lia | apply Z.leb_gt; lia].
Qed.

(** ** Tone duration *)

Lemma selectDuration_audible : forall ppm old,
  (1000 <= ppm < 5000 -> selectDuration ppm old = 2000) /\
  (5000 <= ppm < 10000 -> selectDuration ppm old = 1000) /\
  (10000 <= ppm -> selectDuration ppm old = 500).
Proof.
  intros ppm old. unfold selectDuration.
  split_comparisons; simpl; repeat split; intros; lia.
Qed.

Lemma selectDuration_below_1000 : forall ppm old,
  ppm < 1000 -> selectDuration ppm old = old.
Proof.
  intros ppm old H. unfold selectDuration.
  split_comparisons; simpl; lia.
Qed.

Lemma bind_Some : forall (A B : Type) (m : option A) (k : A -> option B) (b : B),
  bind m k = Some b -> exists a, m = Some a /\ k a = Some b.
Proof.
  intros A B m k b H. destruct m as [a|]; [| discriminate].
  exists a. split; [reflexivity | exact H].
Qed.

(** ** What the link operations leave alone *)

Section Frames.

Context {float : Type} {L : Type} {link : Stream L} {ftext : FloatText float}.

Lemma all_serial_app : forall a b : list (@Event float),
  all_serial a -> all_serial b -> all_serial (a ++ b).
Proof.
  unfold all_serial. intros a b Ha Hb. rewrite forallb_app, Ha, Hb. reflexivity.
Qed.

Lemma awaitResponse_frame : forall fuel startTime maxTime readResponse (s s' : @Sketch float L),
  awaitResponse fuel startTime maxTime readResponse s = Some s' ->
  core s' = core s /\ log s' = log s /\ countTrueCommand s' = countTrueCommand s.
Proof.
  induction fuel as [|fuel IH]; intros startTime maxTime readResponse s s'; simpl.
  - destruct (_ <? _); intros H; [discriminate | now inversion H].
  - destruct (_ <? _); [| intros H; now inversion H].
    destruct (stream_find readResponse (clock s) (esp8266 s)) as [[hit t'] l'].
    destruct hit; intros H.
    + inversion H; subst. repeat split.
    + apply IH in H. destruct H as (Hc & Hl & Hn).
      rewrite Hc, Hl, Hn. repeat split.
Qed.

Lemma sendCommand_frame : forall fuel command maxTime readResponse (s s' : @Sketch float L),
  sendCommand fuel command maxTime readResponse s = Some s' ->
  core s' = core s /\ found s' = false /\
  exists evs, log s' = log s ++ evs /\ all_serial evs.
Proof.
  intros fuel command maxTime readResponse s s'. unfold sendCommand.
  destruct (awaitResponse _ _ _ _ _) as [s5|] eqn:Hw; [| discriminate].
  apply awaitResponse_frame in Hw. destruct Hw as (Hc & Hl & _).
  unfold emit in Hl; simpl in Hl.
  change (core s5 = core s) in Hc.
  intros H; inversion H; subst s'; clear H.
  destruct (found s5) eqn:Hf; unfold emit; simpl; rewrite ?Hf; simpl.
  - split; [exact Hc | split; [reflexivity |]].
    eexists. rewrite Hl. rewrite <- !app_assoc. split; [reflexivity | reflexivity].
  - split; [exact Hc | split; [reflexivity |]].
    eexists. rewrite Hl. rewrite <- !app_assoc. split; [reflexivity | reflexivity].
Qed.

Lemma sendToThingSpeak_frame : forall fuel temperature humidity co2 (s s' : @Sketch float L),
  sendToThingSpeak fuel temperature humidity co2 s = Some s' ->
  core s' = core s /\ found s' = false /\
  exists evs, log s' = log s ++ CallSendToThingSpeak temperature humidity co2 :: evs /\
              all_serial evs.
Proof.
  intros fuel temperature humidity co2 s s' H. unfold sendToThingSpeak in H.
  apply bind_Some in H. destruct H as (s1 & H1 & H).
  apply bind_Some in H. destruct H as (s2 & H2 & H3).
  apply sendCommand_frame in H1, H2, H3.
  destruct H1 as (C1 & _ & e1 & L1 & S1).
  destruct H2 as (C2 & _ & e2 & L2 & S2).
  destruct H3 as (C3 & F3 & e3 & L3 & S3).
  split; [| split; [exact F3 |]].
  - rewrite C3. change (core s2 = core s). rewrite C2, C1. reflexivity.
  - exists (e1 ++ e2 ++ e3). split.
    + rewrite L3. change (log s2 ++ e3 = log s ++ CallSendToThingSpeak temperature humidity co2 :: e1 ++ e2 ++ e3).
      rewrite L2, L1. unfold emit. cbn [log set_log].
      rewrite <- !app_assoc. reflexivity.
    + auto using all_serial_app.
Qed.

Lemma connectToWiFi_frame : forall fuel (s s' : @Sketch float L),
  connectToWiFi fuel s = Some s' ->
  core s' = core s /\ exists evs, log s' = log s ++ evs /\ all_serial evs.
Proof.
  intros fuel s s' H. unfold connectToWiFi in H.
  apply bind_Some in H. destruct H as (s1 & H1 & H).
  apply bind_Some in H. destruct H as (s2 & H2 & H3).
  apply sendCommand_frame in H1, H2, H3.
  destruct H1 as (C1 & _ & e1 & L1 & S1).
  destruct H2 as (C2 & _ & e2 & L2 & S2).
  destruct H3 as (C3 & _ & e3 & L3 & S3).
  split.
  - rewrite C3, C2, C1. reflexivity.
  - exists (e1 ++ e2 ++ e3). split.
    + rewrite L3, L2, L1. rewrite <- !app_assoc. reflexivity.
    + auto using all_serial_app.
Qed.

Lemma alarm_events_serial : forall evs : list (@Event float),
  all_serial evs -> alarm_events evs = [] /\ uploads evs = O.
Proof.
  unfold all_serial, alarm_events, uploads.
  induction evs as [|e evs IH]; simpl; intros H; [split; reflexivity |].
  apply andb_true_iff in H. destruct H as [He Hs].
  destruct (IH Hs) as [Ia Iu].
  destruct e; simpl in *; try discriminate; rewrite ?Ia, ?Iu; split; auto.
Qed.

End Frames.

(** ** The buzzer system *)

Section Alarm.

Context {float : Type} {L : Type} {link : Stream L} {ftext : FloatText float}.

Lemma quiet_refl : forall s : @Sketch float L, quiet s s.
Proof. intros s. repeat split. Qed.

Lemma quiet_trans : forall s1 s2 s3 : @Sketch float L,
  quiet s1 s2 -> quiet s2 s3 -> quiet s1 s3.
Proof.
  unfold quiet. intros s1 s2 s3 (A1 & A2 & A3 & A4 & A5 & A6) (B1 & B2 & B3 & B4 & B5 & B6).
  repeat split; congruence.
Qed.

Lemma alarm_events_app : forall a b : list (@Event float),
  alarm_events (a ++ b) = alarm_events a ++ alarm_events b.
Proof. intros a b. unfold alarm_events. apply filter_app. Qed.

Lemma uploads_app : forall a b : list (@Event float),
  uploads (a ++ b) = (uploads a + uploads b)%nat.
Proof. intros a b. unfold uploads. rewrite filter_app, length_app. reflexivity. Qed.

Lemma quiet_emit : forall (e : @Event float) (s : @Sketch float L),
  is_alarm e = false -> quiet s (emit e s).
Proof.
  intros e s He. unfold quiet, emit.
  repeat split.
  change (alarm_events (log s ++ [e]) = alarm_events (log s)).
  rewrite alarm_events_app. unfold alarm_events at 2. cbn [filter].
  rewrite He. apply app_nil_r.
Qed.

Lemma quiet_analogWrite : forall pin v (s : @Sketch float L), quiet s (analogWrite pin v s).
Proof.
  intros pin v s. unfold analogWrite.
  destruct (pin =? RED); [repeat split |].
  destruct (pin =? GREEN); [repeat split |].
  destruct (pin =? BLUE); repeat split.
Qed.

Lemma quiet_ledBlink : forall ppm (s : @Sketch float L), quiet s (ledBlink ppm s).
Proof.
  intros ppm s. unfold ledBlink.
  destruct (500 <=? _); [| apply quiet_refl].
  cbn [ledOn set_ledStartTime set_ledOn].
  destruct (negb (ledOn s)); [destruct (_ || _) |];
    (eapply quiet_trans; [| apply quiet_analogWrite]);
    (eapply quiet_trans; [| apply quiet_analogWrite]);
    (eapply quiet_trans; [| apply quiet_analogWrite]);
    repeat split.
Qed.

Lemma quiet_indicate : forall i ppm (s : @Sketch float L), quiet s (indicate i ppm s).
Proof.
  intros i ppm s. destruct i as [q r g b| |]; simpl.
  - eapply quiet_trans; [| apply quiet_analogWrite].
    eapply quiet_trans; [| apply quiet_analogWrite].
    eapply quiet_trans; [| apply quiet_analogWrite].
    destruct q; [apply quiet_emit; reflexivity | apply quiet_refl].
  - apply quiet_ledBlink.
  - apply quiet_refl.
Qed.

Lemma quiet_of_core : forall (s s' : @Sketch float L) evs,
  core s' = core s -> log s' = log s ++ evs -> alarm_events evs = [] -> quiet s s'.
Proof.
  intros s s' evs Hc Hl Ha. unfold core in Hc. inversion Hc.
  repeat split; try assumption.
  rewrite Hl, alarm_events_app, Ha. apply app_nil_r.
Qed.

Lemma telemetry_quiet : forall fuel temperature humidity ppm (s s' : @Sketch float L),
  telemetry fuel temperature humidity ppm s = Some s' -> quiet s s'.
Proof.
  intros fuel temperature humidity ppm s s'. unfold telemetry.
  destruct (_ <=? _); [| intros H; inversion H; apply quiet_refl].
  intros H. apply bind_Some in H. destruct H as (s1 & H1 & H).
  inversion H; subst s'; clear H.
  apply sendToThingSpeak_frame in H1. destruct H1 as (Hc & _ & evs & Hl & Hs).
  apply quiet_trans with s1; [| repeat split].
  eapply quiet_of_core; [exact Hc | exact Hl |].
  change (alarm_events (CallSendToThingSpeak temperature humidity ppm :: evs))
    with (alarm_events evs).
  apply alarm_events_serial. exact Hs.
Qed.

(** *** [buzzerManager] *)

Lemma buzzerManager_spec : forall s : @Sketch float L,
  let d := selectDuration (co2Level s) (buzzerDuration s) in
  log (buzzerManager s) = log s ++ [Tone 14 NOTE_C5 d] /\
  buzzerDuration (buzzerManager s) = d /\
  timerId (buzzerManager s) = timerId s /\ timer (buzzerManager s) = timer s /\
  lastCO2Threshold (buzzerManager s) = lastCO2Threshold s /\
  co2Level (buzzerManager s) = co2Level s /\ clock (buzzerManager s) = clock s.
Proof. intros s. repeat split. Qed.

(** *** A severity change *)

Lemma buzzerSystem_same : forall (s : @Sketch float L),
  buzzerSystem (lastCO2Threshold s) s = s.
Proof. intros s. unfold buzzerSystem. rewrite Z.eqb_refl. reflexivity. Qed.

Lemma buzzerSystem_records_level : forall thr (s : @Sketch float L),
  lastCO2Threshold (buzzerSystem thr s) = thr.
Proof.
  intros thr s. unfold buzzerSystem.
  destruct (Z.eqb_spec thr (lastCO2Threshold s)) as [E|N]; simpl.
  - symmetry. exact E.
  - reflexivity.
Qed.

Lemma buzzerSystem_transition : forall thr (s : @Sketch float L),
  one_timer s -> thr <> lastCO2Threshold s ->
  log (buzzerSystem thr s) = log s ++ transition_calls thr s /\
  timer (buzzerSystem thr s) =
    match alarmPeriod thr with
    | Some d => Some (SimpleTimer.mkSlot d (millis (clock s))) :: repeat None 9
    | None => SimpleTimer.empty
    end /\
  timerId (buzzerSystem thr s) = match alarmPeriod thr with Some _ => 0 | None => -1 end /\
  co2Level (buzzerSystem thr s) = co2Level s /\
  buzzerDuration (buzzerSystem thr s) = selectDuration (co2Level s) (buzzerDuration s) /\
  clock (buzzerSystem thr s) = clock s.
Proof.
  intros thr s Hone Hne. unfold buzzerSystem, transition_calls, cancelTimer, armTimer.
  apply Z.eqb_neq in Hne. rewrite Hne. cbn [negb].
  destruct Hone as [[Hid Htm] | [Hid [sl Htm]]]; rewrite Hid; cbn [Z.eqb negb].
  - destruct (alarmPeriod thr) as [d|]; unfold timer_setInterval, buzzerManager, tone, emit;
      cbn; rewrite ?Htm; cbn; rewrite <- ?app_assoc; repeat split; assumption.
  - destruct (alarmPeriod thr) as [d|];
      unfold timer_setInterval, timer_deleteTimer, buzzerManager, tone, emit;
      cbn; rewrite ?Htm; cbn; rewrite <- ?app_assoc; repeat split.
Qed.

Lemma cancelTimer_empties : forall s : @Sketch float L,
  one_timer s ->
  timer (cancelTimer s) = SimpleTimer.empty /\
  timerId (cancelTimer s) = -1 /\
  log (cancelTimer s) = log s ++ (if timerId s =? -1 then [] else [DeleteTimer (timerId s)]).
Proof.
  intros s Hone. unfold cancelTimer.
  destruct Hone as [[Hid Htm] | [Hid [sl Htm]]]; rewrite Hid; cbn [Z.eqb negb].
  - rewrite app_nil_r. auto.
  - unfold timer_deleteTimer, emit. cbn. rewrite Htm. cbn. auto.
Qed.

Lemma buzzerSystem_one_timer : forall thr (s : @Sketch float L),
  one_timer s -> one_timer (buzzerSystem thr s).
Proof.
  intros thr s Hone.
  destruct (Z.eq_dec thr (lastCO2Threshold s)) as [E|N].
  - subst thr. rewrite buzzerSystem_same. exact Hone.
  - destruct (buzzerSystem_transition thr s Hone N) as (_ & Ht & Hi & _).
    unfold one_timer. rewrite Ht, Hi.
    destruct (alarmPeriod thr); [right | left]; eauto.
Qed.

End Alarm.

(** ** The timer table along a run *)

Section Invariant.

Context {float : Type} {L : Type} {link : Stream L} {ftext : FloatText float}.

Lemma one_timer_quiet : forall s s' : @Sketch float L,
  quiet s s' -> one_timer s -> one_timer s'.
Proof.
  unfold quiet, one_timer. intros s s' (Hi & _ & _ & _ & Ht & _) H.
  rewrite Hi, Ht. exact H.
Qed.

Lemma one_timer_numTimers : forall s : @Sketch float L,
  one_timer s -> (SimpleTimer.numTimers (timer s) <= 1)%nat.
Proof.
  intros s [[_ Htm] | [_ [sl Htm]]]; rewrite Htm; cbn; lia.
Qed.

Lemma one_timer_iter_buzzerManager : forall k (s : @Sketch float L),
  timerId (Nat.iter k buzzerManager s) = timerId s /\
  timer (Nat.iter k buzzerManager s) = timer s.
Proof.
  induction k as [|k IH]; intros s; [split; reflexivity |].
  cbn [Nat.iter]. destruct (IH s) as [Hi Ht]. split; [exact Hi | exact Ht].
Qed.

Lemma timer_run_one_timer : forall s : @Sketch float L,
  one_timer s -> one_timer (timer_run s).
Proof.
  intros s Hone. unfold timer_run.
  destruct (SimpleTimer.run (clock s) (timer s)) as [k tm] eqn:Hrun.
  destruct (one_timer_iter_buzzerManager k (set_timer tm s)) as [Hi Ht].
  unfold one_timer. rewrite Hi, Ht. cbn [timerId timer set_timer].
  destruct Hone as [[Hid Htm] | [Hid [sl Htm]]]; rewrite Htm in Hrun; cbn in Hrun.
  - inversion Hrun. left. split; [exact Hid | reflexivity].
  - right. split; [exact Hid |].
    destruct (_ <=? _); inversion Hrun; eauto.
Qed.

(** Up to the buzzer system a pass makes no tone and leaves the timers alone,
    and the level it hands over is the class of the reading. *)
Lemma alertAndUpdate_quiet :
  forall fuel temperature humidity ppm (s : @Sketch float L) level s',
  alertAndUpdate fuel temperature humidity ppm s = Some (level, s') ->
  level = classify ppm /\ quiet (set_co2Level (to_int ppm) s) s'.
Proof.
  intros fuel temperature humidity ppm s level s' H. unfold alertAndUpdate in H.
  unfold classify.
  destruct (band ppm) as [[thr ind] inElse]. cbn [fst].
  apply bind_Some in H. destruct H as (s4 & H4 & H).
  inversion H; subst level s'; clear H.
  split; [reflexivity |].
  destruct inElse.
  - apply telemetry_quiet in H4.
    eapply quiet_trans; [| exact H4].
    eapply quiet_trans; [| apply quiet_indicate].
    repeat (eapply quiet_trans; [| apply quiet_emit; reflexivity]).
    apply quiet_refl.
  - inversion H4; subst s4.
    eapply quiet_trans; [| apply quiet_indicate].
    repeat (eapply quiet_trans; [| apply quiet_emit; reflexivity]).
    apply quiet_refl.
Qed.

Lemma alertAndUpdate_one_timer :
  forall fuel temperature humidity ppm (s : @Sketch float L) level s',
  alertAndUpdate fuel temperature humidity ppm s = Some (level, s') ->
  one_timer s -> one_timer s'.
Proof.
  intros fuel temperature humidity ppm s level s' H Hone.
  apply alertAndUpdate_quiet in H. destruct H as [_ Hq].
  eapply one_timer_quiet; [exact Hq |]. exact Hone.
Qed.

Lemma onReading_one_timer : forall fuel temperature humidity ppm (s s' : @Sketch float L),
  onReading fuel temperature humidity ppm s = Some s' -> one_timer s -> one_timer s'.
Proof.
  intros fuel temperature humidity ppm s s' H Hone. unfold onReading in H.
  apply bind_Some in H. destruct H as ([level s4] & H4 & H).
  inversion H; subst s'; clear H. cbn [fst snd].
  apply buzzerSystem_one_timer.
  eapply alertAndUpdate_one_timer; eassumption.
Qed.

Lemma timer_run_pass_one_timer : forall s : @Sketch float L,
  one_timer s -> one_timer (timer_run (emit (LcdSetCursor 0 0) s)).
Proof.
  intros s Hone. apply timer_run_one_timer.
  eapply one_timer_quiet; [| exact Hone]. apply quiet_emit. reflexivity.
Qed.

Lemma measureEnvironment_quiet : forall dht temperature humidity (s : @Sketch float L),
  quiet s (snd (measureEnvironment dht temperature humidity s)).
Proof.
  intros dht temperature humidity s. unfold measureEnvironment.
  destruct (3000 <? _); [destruct dht as [[t h]|] |]; repeat split.
Qed.

Lemma loop_one_timer : forall fuel co2 dht (s s' : @Sketch float L),
  loop fuel co2 dht s = Some s' -> one_timer s -> one_timer s'.
Proof.
  intros fuel co2 dht s s' H Hone. unfold loop in H.
  apply bind_Some in H. destruct H as (s3 & H3 & H).
  assert (Hone3 : one_timer s3).
  { assert (Hrun : one_timer (timer_run (emit (LcdSetCursor 0 0) s))).
    { apply timer_run_one_timer. eapply one_timer_quiet; [| exact Hone].
      apply quiet_emit. reflexivity. }
    destruct co2 as [ppm|].
    - eapply onReading_one_timer; eassumption.
    - inversion H3; subst s3. exact Hrun. }
  pose proof (measureEnvironment_quiet dht (stack_temperature s) (stack_humidity s) s3) as Hq.
  destruct (measureEnvironment dht (stack_temperature s) (stack_humidity s) s3)
    as [[[ok t'] h'] s4].
  cbn [snd] in Hq. cbv zeta in H.
  assert (Hq5 : quiet s3 (set_stack_humidity h' (set_stack_temperature t' s4))).
  { eapply quiet_trans; [exact Hq | repeat split]. }
  destruct ok; inversion H; subst s'; clear H.
  - eapply one_timer_quiet; [| exact Hone3].
    repeat (eapply quiet_trans; [| apply quiet_emit; reflexivity]).
    exact Hq5.
  - eapply one_timer_quiet; [exact Hq5 | exact Hone3].
Qed.

Lemma setup_one_timer : forall fuel (s s' : @Sketch float L),
  setup fuel s = Some s' -> one_timer s -> one_timer s'.
Proof.
  intros fuel s s' H Hone. unfold setup in H.
  apply connectToWiFi_frame in H. destruct H as (Hc & evs & Hl & Hs).
  eapply one_timer_quiet; [| exact Hone].
  apply quiet_trans with (analogWrite BLUE 255 (analogWrite GREEN 0 (analogWrite RED 0 s))).
  - eapply quiet_trans; [| apply quiet_analogWrite].
    eapply quiet_trans; [| apply quiet_analogWrite].
    apply quiet_analogWrite.
  - eapply quiet_of_core; [exact Hc | exact Hl |].
    apply alarm_events_serial. exact Hs.
Qed.

Lemma reachable_one_timer : forall s : @Sketch float L, reachable s -> one_timer s.
Proof.
  intros s H.
  induction H as [t0 l0 | fuel s s' _ IH Hs | ms s _ IH | temperature humidity s _ IH
                 | fuel temperature humidity ppm s level s' _ IH Hr
                 | fuel co2 dht s s' _ IH Hl].
  - left. split; reflexivity.
  - eapply setup_one_timer; eassumption.
  - exact IH.
  - exact IH.
  - eapply alertAndUpdate_one_timer; [exact Hr |].
    apply timer_run_pass_one_timer. exact IH.
  - eapply loop_one_timer; eassumption.
Qed.

End Invariant.

(** ** Severity changes: periods, order of the calls, idempotence *)

Section Transitions.

Context {float : Type} {L : Type} {link : Stream L} {ftext : FloatText float}.

Lemma transition_live_periods : forall thr (s : @Sketch float L),
  reachable s -> thr <> lastCO2Threshold s ->
  live_periods (timer (buzzerSystem thr s)) =
    match alarmPeriod thr with Some d => [d] | None => [] end.
Proof.
  intros thr s Hr Hne.
  destruct (buzzerSystem_transition thr s (reachable_one_timer s Hr) Hne) as (_ & Ht & _).
  rewrite Ht. destruct (alarmPeriod thr); reflexivity.
Qed.

(** C2, amended: on a severity change from a reachable state the timer table
    afterwards holds no timer when the new level is Normal or Elevated, one
    timer of 10 s when it is High, of 5 s when it is Severe, and of 1 s when
    it is Critical or Extreme. *)
Theorem transition_arms_by_level : forall newLevel (s : @Sketch float L),
  reachable s -> newLevel <> lastCO2Threshold s ->
  (newLevel = Normal \/ newLevel = Elevated ->
     live_periods (timer (buzzerSystem newLevel s)) = []) /\
  (newLevel = High -> live_periods (timer (buzzerSystem newLevel s)) = [10000]) /\
  (newLevel = Severe -> live_periods (timer (buzzerSystem newLevel s)) = [5000]) /\
  (newLevel = Critical -> live_periods (timer (buzzerSystem newLevel s)) = [1000]) /\
  (newLevel = Extreme -> live_periods (timer (buzzerSystem newLevel s)) = [1000]).
Proof.
  intros newLevel s Hr Hne.
  rewrite (transition_live_periods newLevel s Hr Hne).
  unfold Normal, Elevated, High, Severe, Critical, Extreme.
  split_ands; [intros [H|H] | intros H ..]; subst newLevel; reflexivity.
Qed.

(** C5: in every reachable state at most one timer is live, and [timerId] is
    [-1] exactly when none is.  A severity change from such a state logs, in
    this order, one [deleteTimer] of the live timer if there is one, the
    pulse, and at most one [setInterval]; the table is empty once the cancel
    is done, so the new timer is armed into an empty table, and at most one
    timer is live afterwards. *)
Theorem at_most_one_timer : forall s : @Sketch float L,
  reachable s ->
  (SimpleTimer.numTimers (timer s) <= 1)%nat /\
  (timerId s = -1 <-> SimpleTimer.numTimers (timer s) = 0%nat) /\
  forall newLevel, newLevel <> lastCO2Threshold s ->
    log (buzzerSystem newLevel s) =
      log s ++
      (if timerId s =? -1 then [] else [DeleteTimer (timerId s)]) ++
      [Tone 14 NOTE_C5 (selectDuration (co2Level s) (buzzerDuration s))] ++
      match alarmPeriod newLevel with
      | Some d => [SetInterval d 0]
      | None => []
      end /\
    SimpleTimer.numTimers (timer (cancelTimer s)) = 0%nat /\
    (SimpleTimer.numTimers (timer (buzzerSystem newLevel s)) <= 1)%nat.
Proof.
  intros s Hr. pose proof (reachable_one_timer s Hr) as Hone.
  split; [apply one_timer_numTimers; exact Hone |].
  split.
  - destruct Hone as [[Hid Htm] | [Hid [sl Htm]]]; rewrite Hid, Htm; cbn; split; intros; lia.
  - intros newLevel Hne.
    destruct (buzzerSystem_transition newLevel s Hone Hne) as (Hl & _).
    destruct (cancelTimer_empties s Hone) as (Hc & _).
    split; [exact Hl |]. split.
    + rewrite Hc. reflexivity.
    + apply one_timer_numTimers. apply buzzerSystem_one_timer. exact Hone.
Qed.

Lemma onReading_same_level : forall fuel temperature humidity ppm (s s' : @Sketch float L),
  lastCO2Threshold s = classify ppm ->
  onReading fuel temperature humidity ppm s = Some s' ->
  quiet (set_co2Level (to_int ppm) s) s'.
Proof.
  intros fuel temperature humidity ppm s s' Hlast H. unfold onReading in H.
  apply bind_Some in H. destruct H as ([thr s4] & H4 & H).
  inversion H; subst s'; clear H. cbn [fst snd].
  apply alertAndUpdate_quiet in H4. destruct H4 as [Hthr Hq].
  assert (Hlevel : thr = lastCO2Threshold s4).
  { destruct Hq as (_ & Hl & _). rewrite Hl. cbn. rewrite Hlast. exact Hthr. }
  rewrite Hlevel, buzzerSystem_same. exact Hq.
Qed.

(** C9: a severity change applied twice is the change applied once, and a
    reading that classifies to the level already recorded in
    [lastCO2Threshold] leaves [timerId] and the timer table as they are and
    logs no tone, no [deleteTimer] and no [setInterval]. *)
Theorem same_level_is_idle : forall level (s : @Sketch float L),
  buzzerSystem level (buzzerSystem level s) = buzzerSystem level s /\
  forall fuel temperature humidity ppm s',
    classify ppm = level ->
    onReading fuel temperature humidity ppm (buzzerSystem level s) = Some s' ->
    timerId s' = timerId (buzzerSystem level s) /\
    timer s' = timer (buzzerSystem level s) /\
    lastCO2Threshold s' = level /\
    alarm_events (log s') = alarm_events (log (buzzerSystem level s)).
Proof.
  intros level s. split.
  - rewrite <- (buzzerSystem_records_level level s) at 1.
    apply buzzerSystem_same.
  - intros fuel temperature humidity ppm s' Hc H.
    apply onReading_same_level in H.
    + destruct H as (Hi & Hl & _ & _ & Ht & Ha).
      cbn in Hi, Hl, Ht, Ha. rewrite Hi, Ht, Ha, Hl.
      rewrite buzzerSystem_records_level. repeat split.
    + rewrite buzzerSystem_records_level. symmetry. exact Hc.
Qed.

(** *** Pulses *)

Lemma buzzerManager_audible : forall ppm (s : @Sketch float L),
  (1000 <= ppm < 5000 ->
     log (buzzerManager (set_co2Level ppm s)) = log s ++ [Tone 14 NOTE_C5 2000]) /\
  (5000 <= ppm < 10000 ->
     log (buzzerManager (set_co2Level ppm s)) = log s ++ [Tone 14 NOTE_C5 1000]) /\
  (10000 <= ppm ->
     log (buzzerManager (set_co2Level ppm s)) = log s ++ [Tone 14 NOTE_C5 500]).
Proof.
  intros ppm s.
  destruct (selectDuration_audible ppm (buzzerDuration s)) as (H1 & H2 & H3).
  split_ands; intros H;
    destruct (buzzerManager_spec (set_co2Level ppm s)) as (Hl & _);
    rewrite Hl; cbn [log co2Level buzzerDuration set_co2Level];
    rewrite ?(H1 H), ?(H2 H), ?(H3 H); reflexivity.
Qed.

(** Below 1000 ppm the three [if]s of [buzzerManager] leave the static
    [buzzerDuration] alone and [tone] is called with it. *)
Lemma buzzerManager_below_1000 : forall ppm (s : @Sketch float L),
  ppm < 1000 ->
  log (buzzerManager (set_co2Level ppm s)) = log s ++ [Tone 14 NOTE_C5 (buzzerDuration s)].
Proof.
  intros ppm s H.
  destruct (buzzerManager_spec (set_co2Level ppm s)) as (Hl & _).
  rewrite Hl. cbn [log co2Level buzzerDuration set_co2Level].
  rewrite selectDuration_below_1000 by exact H. reflexivity.
Qed.

End Transitions.

(** C2, as stated, fails: a reading of 3000 ppm is High, and the pass that
    sees it arms a timer of 10 s; a reading of 6000 ppm is Severe and arms
    5 s, not 10 s; a reading of 12000 ppm is Critical and arms 1 s, not 5 s. *)
Lemma high_arms_a_timer :
  classify 3000 = High /\
  option_map (fun s => live_periods (timer s)) (loop 1 (Some 3000) None bench)
    = Some [10000] /\
  classify 6000 = Severe /\
  option_map (fun s => live_periods (timer s)) (loop 1 (Some 6000) None bench)
    = Some [5000] /\
  classify 12000 = Critical /\
  option_map (fun s => live_periods (timer s)) (loop 1 (Some 12000) None bench)
    = Some [1000].
Proof. vm_compute. split_ands; reflexivity. Qed.

Lemma transition_arms_by_level_witness :
  live_periods (timer (buzzerSystem High bench)) = [10000] /\
  live_periods (timer (buzzerSystem Elevated bench)) = [].
Proof.
  split.
  - apply (transition_arms_by_level High bench (reach_power_on 0 (mkUnplugged EmptyString))).
    + vm_compute. discriminate.
    + reflexivity.
  - apply (transition_arms_by_level Elevated bench (reach_power_on 0 (mkUnplugged EmptyString))).
    + vm_compute. discriminate.
    + right. reflexivity.
Defined.

(** C4: the code at readings 1500 ppm then 500 ppm.  The first pass sounds
    2000 ms; the second pass, at 500 ppm, calls [tone] again with the 2000 ms
    left in the static [buzzerDuration]. *)
Theorem tone_below_1000_is_stale :
  alarm_calls (passes 1 [(0, Some 1500, None)] bench) = Some [Tone 14 NOTE_C5 2000] /\
  alarm_calls (passes 1 [(0, Some 1500, None); (1000, Some 500, None)] bench)
    = Some [Tone 14 NOTE_C5 2000; Tone 14 NOTE_C5 2000] /\
  classify 500 = Normal.
Proof. vm_compute. split_ands; reflexivity. Qed.

(** ** The calls of [find] made by the command engine *)

Section Polling.

Context {float : Type} {L : Type} {link : Stream L} {ftext : FloatText float}.






End Polling.

(** ** The command engine on a link whose [find] returns *)

Section Timing.

Context {float : Type} {L : Type} {link : Stream L} {ftext : FloatText float}.

(** [D] bounds the time one call of [find] can take; a call that gives up has
    waited for at least a millisecond. *)
Variable D : Z.

Hypothesis find_returns : forall target t (l : L),
  t <= snd (fst (stream_find target t l)) <= t + D /\
  (fst (fst (stream_find target t l)) = false ->
   t + 1 <= snd (fst (stream_find target t l))).

Lemma awaitResponse_total : forall fuel t0 maxTime readResponse (s : @Sketch float L),
  to_ulong maxTime + D < 2 ^ 32 ->
  0 <= clock s - t0 <= to_ulong maxTime + D ->
  to_ulong maxTime - (clock s - t0) < Z.of_nat fuel ->
  exists s',
    awaitResponse fuel (to_long (millis t0)) maxTime readResponse s = Some s' /\
    clock s <= clock s' /\ clock s' - t0 <= to_ulong maxTime + D /\
    ((found s' = true /\
      exists t l, clock s <= t /\ t - t0 < to_ulong maxTime /\
                  stream_find readResponse t l = (true, clock s', esp8266 s')) \/
     (found s' = found s /\ to_ulong maxTime <= clock s' - t0)).
Proof.
  induction fuel as [|fuel IH]; intros t0 maxTime readResponse s HD He Hfuel.
  - cbn [awaitResponse]. rewrite elapsed_since_stamp_small by lia.
    destruct (Z.ltb_spec (clock s - t0) (to_ulong maxTime)) as [Hlt|Hge]; [cbn in Hfuel; lia |].
    exists s. split_ands; try reflexivity; try lia. right. split; [reflexivity | lia].
  - cbn [awaitResponse]. rewrite elapsed_since_stamp_small by lia.
    destruct (Z.ltb_spec (clock s - t0) (to_ulong maxTime)) as [Hlt|Hge].
    + pose proof (find_returns readResponse (clock s) (esp8266 s)) as [Ht Hprog].
      destruct (stream_find readResponse (clock s) (esp8266 s)) as [[hit t'] l'] eqn:Hfind.
      cbn [fst snd] in Ht, Hprog.
      destruct hit.
      * eexists. split; [reflexivity |]. cbn.
        split_ands; try lia.
        left. split; [reflexivity |].
        exists (clock s), (esp8266 s). split_ands; [lia | lia | exact Hfind].
      * specialize (Hprog eq_refl).
        destruct (IH t0 maxTime readResponse (set_esp8266 l' (set_clock t' s)))
          as (s' & Hs' & Hc1 & Hc2 & Hv); cbn [clock set_esp8266 set_clock]; try lia.
        exists s'. split; [exact Hs' |].
        cbn [clock set_esp8266 set_clock] in Hc1.
        split_ands; try lia.
        destruct Hv as [(Hf & t & l & Ha & Hb & Hcall) | (Hf & Hm)].
        -- left. split; [exact Hf |]. exists t, l.
           cbn [clock set_esp8266 set_clock] in Ha. split_ands; [lia | lia | exact Hcall].
        -- right. split; [exact Hf | exact Hm].
    + exists s. split_ands; try reflexivity; try lia. right. split; [reflexivity | lia].
Qed.

Lemma sendCommand_returns : forall fuel command maxTime readResponse (s : @Sketch float L),
  to_ulong maxTime + D < 2 ^ 32 ->
  to_ulong maxTime < Z.of_nat fuel ->
  exists s',
    sendCommand fuel command maxTime readResponse s = Some s' /\
    clock s <= clock s' <= clock s + to_ulong maxTime + D.
Proof.
  intros fuel command maxTime readResponse s HD Hfuel.
  pose proof (to_ulong_range maxTime) as HM.
  assert (HD0 : 0 <= D).
  { pose proof (find_returns readResponse 0 (esp8266 s)). lia. }
  unfold sendCommand.
  match goal with
  | |- context [awaitResponse fuel (to_long (millis (clock ?s4))) maxTime readResponse ?s4'] =>
      destruct (awaitResponse_total fuel (clock s4) maxTime readResponse s4')
        as (s5 & Hs5 & Hc1 & Hc2 & _)
  end; cbn [clock set_esp8266 emit set_log]; try lia.
  cbn [clock set_esp8266 emit set_log] in Hs5, Hc1, Hc2.
  cbn [clock set_esp8266 emit set_log]. rewrite Hs5.
  eexists. split; [reflexivity |].
  destruct (found s5) eqn:Hf;
    cbn [found set_countTrueCommand emit set_log]; rewrite Hf; cbn [negb];
    cbn [clock set_found set_countTrueCommand emit set_log]; lia.
Qed.

Lemma sendCommand_total : forall fuel command maxTime readResponse (s : @Sketch float L),
  found s = false ->
  to_ulong maxTime + D < 2 ^ 32 ->
  to_ulong maxTime < Z.of_nat fuel ->
  exists s',
    sendCommand fuel command maxTime readResponse s = Some s' /\
    clock s <= clock s' <= clock s + to_ulong maxTime + D /\
    ((log s' = log s ++ report (countTrueCommand s) command (": OK" ++ crlf) /\
      countTrueCommand s' = countTrueCommand s + 1 /\
      exists t l, clock s <= t /\ t - clock s < to_ulong maxTime /\
                  stream_find readResponse t l = (true, clock s', esp8266 s')) \/
     (log s' = log s ++ report (countTrueCommand s) command ": FAIL" /\
      countTrueCommand s' = countTrueCommand s /\
      to_ulong maxTime <= clock s' - clock s)).
Proof.
  intros fuel command maxTime readResponse s Hfound HD Hfuel.
  pose proof (to_ulong_range maxTime) as HM.
  assert (HD0 : 0 <= D).
  { pose proof (find_returns readResponse 0 (esp8266 s)). lia. }
  unfold sendCommand.
  match goal with
  | |- context [awaitResponse fuel (to_long (millis (clock ?s4))) maxTime readResponse ?s4'] =>
      destruct (awaitResponse_total fuel (clock s4) maxTime readResponse s4')
        as (s5 & Hs5 & Hc1 & Hc2 & Hv)
  end; cbn [clock set_esp8266 emit set_log]; try lia.
  cbn [clock set_esp8266 emit set_log] in Hs5, Hc1, Hc2, Hv.
  cbn [clock set_esp8266 emit set_log]. rewrite Hs5.
  pose proof (awaitResponse_frame _ _ _ _ _ _ Hs5) as (_ & Hlog & Hcount).
  cbn [log countTrueCommand set_esp8266 emit set_log] in Hlog, Hcount.
  destruct Hv as [(Hf & t & l & Ha & Hb & Hcall) | (Hf & Hm)].
  - rewrite Hf. cbn [found set_countTrueCommand emit set_log]. rewrite Hf. cbn [negb].
    eexists. split; [reflexivity |].
    cbn [clock log countTrueCommand esp8266 set_found set_countTrueCommand emit set_log].
    split; [lia |]. left. split_ands.
    + rewrite Hlog. unfold report. rewrite <- !app_assoc. reflexivity.
    + rewrite Hcount. reflexivity.
    + exists t, l. split_ands; [lia | lia | exact Hcall].
  - cbn [found set_esp8266 emit set_log] in Hf. rewrite Hfound in Hf.
    rewrite Hf. cbn [negb]. rewrite Hf. cbn [negb].
    eexists. split; [reflexivity |].
    cbn [clock log countTrueCommand esp8266 set_found set_countTrueCommand emit set_log].
    split; [lia |]. right. split_ands.
    + rewrite Hlog. unfold report. rewrite <- !app_assoc. reflexivity.
    + exact Hcount.
    + lia.
Qed.

(** *** The calls of [find] made by one command *)




(** *** Steps that stay off the link *)

Lemma offline_refl : forall s : @Sketch float L, offline s s.
Proof.
  intros s. repeat split. exists []. split; [symmetry; apply app_nil_r | reflexivity].
Qed.

Lemma no_upload_app : forall a b : list (@Event float),
  no_upload a -> no_upload b -> no_upload (a ++ b).
Proof.
  unfold no_upload. intros a b Ha Hb. rewrite forallb_app, Ha, Hb. reflexivity.
Qed.

Lemma offline_trans : forall s1 s2 s3 : @Sketch float L,
  offline s1 s2 -> offline s2 s3 -> offline s1 s3.
Proof.
  intros s1 s2 s3 (A1 & A2 & A3 & e1 & L1 & N1) (B1 & B2 & B3 & e2 & L2 & N2).
  unfold offline. split_ands; try congruence.
  exists (e1 ++ e2). split; [rewrite L2, L1, app_assoc; reflexivity |].
  apply no_upload_app; assumption.
Qed.

Lemma offline_emit : forall (e : @Event float) (s : @Sketch float L),
  is_upload e = false -> offline s (emit e s).
Proof.
  intros e s He. repeat split. exists [e]. split; [reflexivity |].
  unfold no_upload. cbn. rewrite He. reflexivity.
Qed.

Ltac offline_silent :=
  repeat split; exists []; split; [symmetry; apply app_nil_r | reflexivity].

Lemma offline_analogWrite : forall pin v (s : @Sketch float L), offline s (analogWrite pin v s).
Proof.
  intros pin v s. unfold analogWrite.
  destruct (pin =? RED); [offline_silent |].
  destruct (pin =? GREEN); [offline_silent |].
  destruct (pin =? BLUE); offline_silent.
Qed.

Lemma offline_ledBlink : forall ppm (s : @Sketch float L), offline s (ledBlink ppm s).
Proof.
  intros ppm s. unfold ledBlink.
  destruct (500 <=? _); [| apply offline_refl].
  cbn [ledOn set_ledStartTime set_ledOn].
  destruct (negb (ledOn s)); [destruct (_ || _) |];
    (eapply offline_trans; [| apply offline_analogWrite]);
    (eapply offline_trans; [| apply offline_analogWrite]);
    (eapply offline_trans; [| apply offline_analogWrite]);
    offline_silent.
Qed.

Lemma offline_indicate : forall i ppm (s : @Sketch float L), offline s (indicate i ppm s).
Proof.
  intros i ppm s. destruct i as [q r g b| |]; simpl.
  - eapply offline_trans; [| apply offline_analogWrite].
    eapply offline_trans; [| apply offline_analogWrite].
    eapply offline_trans; [| apply offline_analogWrite].
    destruct q; [apply offline_emit; reflexivity | apply offline_refl].
  - apply offline_ledBlink.
  - apply offline_refl.
Qed.

Lemma offline_buzzerManager : forall s : @Sketch float L, offline s (buzzerManager s).
Proof.
  intros s. unfold buzzerManager, tone.
  eapply offline_trans; [| apply offline_emit; reflexivity]. offline_silent.
Qed.

Lemma offline_iter_buzzerManager : forall k (s : @Sketch float L),
  offline s (Nat.iter k buzzerManager s).
Proof.
  induction k as [|k IH]; intros s; [apply offline_refl |].
  cbn [Nat.iter]. eapply offline_trans; [apply IH | apply offline_buzzerManager].
Qed.

Lemma offline_timer_run : forall s : @Sketch float L, offline s (timer_run s).
Proof.
  intros s. unfold timer_run. destruct (SimpleTimer.run _ _) as [k tm].
  eapply offline_trans; [| apply offline_iter_buzzerManager]. offline_silent.
Qed.

Lemma offline_buzzerSystem : forall thr (s : @Sketch float L), offline s (buzzerSystem thr s).
Proof.
  intros thr s. unfold buzzerSystem.
  destruct (negb _); [| apply offline_refl].
  apply offline_trans with (armTimer thr (buzzerManager (cancelTimer s))); [| offline_silent].
  apply offline_trans with (buzzerManager (cancelTimer s)).
  - apply offline_trans with (cancelTimer s); [| apply offline_buzzerManager].
    unfold cancelTimer. destruct (negb _); [| apply offline_refl].
    unfold timer_deleteTimer.
    apply offline_trans with
      (emit (DeleteTimer (timerId s))
         (set_timer (SimpleTimer.deleteTimer (timerId s) (timer s)) s)); [| offline_silent].
    eapply offline_trans; [| apply offline_emit; reflexivity]. offline_silent.
  - unfold armTimer. destruct (alarmPeriod thr) as [d|]; [| apply offline_refl].
    unfold timer_setInterval.
    destruct (SimpleTimer.setInterval _ _ _) as [id tm].
    apply offline_trans with (emit (SetInterval d id) (set_timer tm (buzzerManager (cancelTimer s))));
      [| offline_silent].
    eapply offline_trans; [| apply offline_emit; reflexivity]. offline_silent.
Qed.

Lemma offline_measureEnvironment : forall dht temperature humidity (s : @Sketch float L),
  offline s (snd (measureEnvironment dht temperature humidity s)).
Proof.
  intros dht temperature humidity s. unfold measureEnvironment.
  destruct (3000 <? _); [destruct dht as [[t h]|] |]; offline_silent.
Qed.

Lemma no_upload_uploads : forall evs : list (@Event float),
  no_upload evs -> uploads evs = O.
Proof.
  unfold no_upload, uploads.
  induction evs as [|e evs IH]; cbn; intros H; [reflexivity |].
  apply andb_true_iff in H. destruct H as [He Hs]. specialize (IH Hs).
  destruct e; cbn in *; try discriminate; exact IH.
Qed.

Lemma all_serial_no_upload : forall evs : list (@Event float),
  all_serial evs -> no_upload evs.
Proof.
  unfold all_serial, no_upload.
  induction evs as [|e evs IH]; cbn; intros H; [reflexivity |].
  apply andb_true_iff in H. destruct H as [He Hs]. rewrite (IH Hs).
  destruct e; cbn in *; try discriminate; reflexivity.
Qed.

(** *** The upload and the pass around it *)

Lemma sendToThingSpeak_returns :
  forall fuel temperature humidity co2 (s : @Sketch float L),
  4000 + D < 2 ^ 32 ->
  4000 < Z.of_nat fuel ->
  exists s',
    sendToThingSpeak fuel temperature humidity co2 s = Some s' /\
    clock s + 1500 <= clock s' <= clock s + 9500 + 3 * D.
Proof.
  intros fuel temperature humidity co2 s HD Hfuel.
  unfold sendToThingSpeak.
  match goal with
  | |- context [sendCommand fuel ?c 4000 ?r ?st] =>
      destruct (sendCommand_returns fuel c 4000 r st) as (s1 & H1 & B1)
  end; try (change (to_ulong 4000) with 4000; lia).
  rewrite H1. cbn [bind].
  match goal with
  | |- context [sendCommand fuel ?c 2000 ?r s1] =>
      destruct (sendCommand_returns fuel c 2000 r s1) as (s2 & H2 & B2)
  end; try (change (to_ulong 2000) with 2000; lia).
  rewrite H2. cbn [bind].
  match goal with
  | |- context [sendCommand fuel ?c 2000 ?r ?st] =>
      destruct (sendCommand_returns fuel c 2000 r st) as (s3 & H3 & B3)
  end; try (change (to_ulong 2000) with 2000; lia).
  exists s3. split; [exact H3 |].
  change (to_ulong 4000) with 4000 in B1.
  change (to_ulong 2000) with 2000 in B2, B3.
  cbn [clock emit set_log set_esp8266 delay set_clock] in B1, B3.
  lia.
Qed.

Lemma telemetry_returns : forall fuel temperature humidity ppm (s : @Sketch float L),
  4000 + D < 2 ^ 32 ->
  4000 < Z.of_nat fuel ->
  exists s',
    telemetry fuel temperature humidity ppm s = Some s' /\
    if 15000 <=? ulong_sub (millis (clock s)) (lastSendTime s)
    then lastSendTime s' = to_long (millis (clock s')) /\
         clock s + 1500 <= clock s' <= clock s + 9500 + 3 * D /\
         exists evs, log s' = log s ++ CallSendToThingSpeak temperature humidity ppm :: evs /\
                     all_serial evs
    else s' = s.
Proof.
  intros fuel temperature humidity ppm s HD Hfuel. unfold telemetry.
  change (to_ulong 15000) with 15000.
  destruct (15000 <=? _); [| exists s; split; reflexivity].
  destruct (sendToThingSpeak_returns fuel temperature humidity ppm s HD Hfuel)
    as (s1 & H1 & B1).
  rewrite H1. cbn [bind]. eexists. split; [reflexivity |].
  apply sendToThingSpeak_frame in H1. destruct H1 as (_ & _ & evs & Hl & Hs).
  split; [reflexivity |]. split; [exact B1 |].
  exists evs. split; [exact Hl | exact Hs].
Qed.

Lemma upload_outcome_steps :
  forall temperature humidity ppm (s0 s1 s2 s3 : @Sketch float L),
  offline s0 s1 -> upload_outcome D temperature humidity ppm s1 s2 -> offline s2 s3 ->
  upload_outcome D temperature humidity ppm s0 s3.
Proof.
  intros temperature humidity ppm s0 s1 s2 s3 H01 H12 H23.
  unfold upload_outcome, gate_open in *.
  destruct H01 as (C1 & T1 & F1 & e1 & L1 & N1).
  destruct H23 as (C3 & T3 & F3 & e3 & L3 & N3).
  rewrite C1, T1 in H12.
  destruct ((2500 <=? ppm) && _).
  - destruct H12 as (Ht & Hc & pre & post & Hl & Np & Nq).
    rewrite T3, C3. split; [exact Ht |]. split; [lia |].
    exists (e1 ++ pre), (post ++ e3). split_ands.
    + rewrite L3, Hl, L1. rewrite <- !app_assoc. cbn [app]. reflexivity.
    + apply no_upload_app; assumption.
    + apply no_upload_app; assumption.
  - apply offline_trans with s1; [repeat split; eauto |].
    apply offline_trans with s2; [exact H12 | repeat split; eauto].
Qed.

Lemma onReading_returns : forall fuel temperature humidity ppm (s : @Sketch float L),
  4000 + D < 2 ^ 32 ->
  4000 < Z.of_nat fuel ->
  exists s',
    onReading fuel temperature humidity ppm s = Some s' /\
    upload_outcome D temperature humidity ppm s s'.
Proof.
  intros fuel temperature humidity ppm s HD Hfuel. unfold onReading, alertAndUpdate.
  pose proof (band_telemetry ppm) as [Hband _].
  destruct (band ppm) as [[thr ind] inElse]. cbn [snd] in Hband. subst inElse.
  match goal with
  | |- context [indicate ind (to_int ppm) ?st] =>
      assert (H03 : offline s (indicate ind (to_int ppm) st))
  end.
  { eapply offline_trans; [| apply offline_indicate].
    eapply offline_trans; [| apply offline_emit; reflexivity].
    eapply offline_trans; [| apply offline_emit; reflexivity].
    eapply offline_trans; [| apply offline_emit; reflexivity].
    eapply offline_trans; [| apply offline_emit; reflexivity].
    offline_silent. }
  match goal with
  | |- context [indicate ind (to_int ppm) ?st] =>
      set (s3 := indicate ind (to_int ppm) st) in *
  end.
  destruct (Z.leb_spec 2500 ppm) as [Hhigh|Hlow].
  - destruct (telemetry_returns fuel temperature humidity (to_int ppm) s3 HD Hfuel)
      as (s4 & H4 & Hout).
    rewrite H4. cbn [bind fst snd]. eexists. split; [reflexivity |].
    apply upload_outcome_steps with s3 s4; [exact H03 | | apply offline_buzzerSystem].
    unfold upload_outcome, gate_open.
    apply Z.leb_le in Hhigh. rewrite Hhigh. cbn [andb].
    destruct (15000 <=? _).
    + destruct Hout as (Ht & Hc & evs & Hl & Hs).
      split; [exact Ht |]. split; [exact Hc |].
      exists [], evs. split_ands; [exact Hl | reflexivity |].
      apply all_serial_no_upload. exact Hs.
    + subst s4. apply offline_refl.
  - cbn [bind fst snd]. eexists. split; [reflexivity |].
    unfold upload_outcome, gate_open.
    apply Z.leb_gt in Hlow. rewrite Hlow. cbn [andb].
    eapply offline_trans; [exact H03 | apply offline_buzzerSystem].
Qed.

Lemma loop_returns : forall fuel ppm dht (s : @Sketch float L),
  4000 + D < 2 ^ 32 ->
  4000 < Z.of_nat fuel ->
  exists s',
    loop fuel (Some ppm) dht s = Some s' /\
    upload_outcome D (stack_temperature s) (stack_humidity s) ppm s s'.
Proof.
  intros fuel ppm dht s HD Hfuel. unfold loop.
  match goal with
  | |- context [onReading fuel ?t ?h ppm ?st] =>
      assert (H02 : offline s st);
        [| destruct (onReading_returns fuel t h ppm st HD Hfuel)
             as (s3 & H3 & Hout) ]
  end.
  { eapply offline_trans; [| apply offline_timer_run]. apply offline_emit. reflexivity. }
  rewrite H3. cbn [bind].
  pose proof (offline_measureEnvironment dht (stack_temperature s) (stack_humidity s) s3)
    as Hm.
  destruct (measureEnvironment dht (stack_temperature s) (stack_humidity s) s3)
    as [[[ok t'] h'] s4].
  cbn [snd] in Hm. cbv zeta.
  assert (Hm5 : offline s3 (set_stack_humidity h' (set_stack_temperature t' s4))).
  { eapply offline_trans; [exact Hm | offline_silent]. }
  destruct ok; eexists; (split; [reflexivity |]);
    (eapply upload_outcome_steps; [exact H02 | exact Hout |]).
  - eapply offline_trans; [exact Hm5 |].
    repeat (eapply offline_trans; [| apply offline_emit; reflexivity]).
    apply offline_refl.
  - exact Hm5.
Qed.

Lemma no_upload_In : forall (evs : list (@Event float)) temperature humidity co2,
  no_upload evs -> ~ In (CallSendToThingSpeak temperature humidity co2) evs.
Proof.
  unfold no_upload. intros evs temperature humidity co2 H Hin.
  rewrite forallb_forall in H. specialize (H _ Hin). discriminate.
Qed.

Lemma upload_outcome_uploads : forall temperature humidity ppm (s s' : @Sketch float L),
  upload_outcome D temperature humidity ppm s s' ->
  exists evs,
    log s' = log s ++ evs /\
    uploads evs = (if gate_open ppm s then 1 else 0)%nat /\
    forall t h c, In (CallSendToThingSpeak t h c) evs ->
                  t = temperature /\ h = humidity /\ c = to_int ppm.
Proof.
  intros temperature humidity ppm s s' H. unfold upload_outcome in H.
  destruct (gate_open ppm s).
  - destruct H as (_ & _ & pre & post & Hl & Np & Nq).
    exists (pre ++ CallSendToThingSpeak temperature humidity (to_int ppm) :: post).
    split; [exact Hl |]. split.
    + rewrite uploads_app.
      change (uploads (CallSendToThingSpeak temperature humidity (to_int ppm) :: post))
        with (S (uploads post)).
      pose proof (no_upload_uploads pre Np) as Hp.
      pose proof (no_upload_uploads post Nq) as Hq.
      rewrite Hp, Hq. reflexivity.
    + intros t h c Hin. apply in_app_or in Hin. destruct Hin as [Hin | [Heq | Hin]].
      * exfalso. exact (no_upload_In pre t h c Np Hin).
      * inversion Heq. auto.
      * exfalso. exact (no_upload_In post t h c Nq Hin).
  - destruct H as (_ & _ & _ & evs & Hl & Hn).
    exists evs. split; [exact Hl |]. split.
    + apply no_upload_uploads. exact Hn.
    + intros t h c Hin. exfalso. exact (no_upload_In evs t h c Hn Hin).
Qed.

(** C3, amended: when the 15 s test of [loop] passes, [sendToThingSpeak] runs
    to its end on every link, whatever the verdicts of its commands, and
    [lastSendTime] is then set to the time at which it returned, at least
    1500 ms after the test; when the test fails nothing is touched. *)
Theorem timestamp_follows_every_upload :
  forall fuel temperature humidity ppm (s : @Sketch float L),
  4000 + D < 2 ^ 32 ->
  4000 < Z.of_nat fuel ->
  exists s',
    telemetry fuel temperature humidity ppm s = Some s' /\
    (15000 <= ulong_sub (millis (clock s)) (lastSendTime s) ->
       lastSendTime s' = to_long (millis (clock s')) /\
       clock s + 1500 <= clock s' /\
       uploads (log s') = S (uploads (log s))) /\
    (ulong_sub (millis (clock s)) (lastSendTime s) < 15000 -> s' = s).
Proof.
  intros fuel temperature humidity ppm s HD Hfuel.
  destruct (telemetry_returns fuel temperature humidity ppm s HD Hfuel) as (s' & Hs' & Hout).
  exists s'. split; [exact Hs' |].
  destruct (Z.leb_spec 15000 (ulong_sub (millis (clock s)) (lastSendTime s))) as [Hge|Hlt].
  - destruct Hout as (Ht & Hc & evs & Hl & Hser).
    split; [| intros; lia].
    intros _. split; [exact Ht |]. split; [lia |].
    rewrite Hl, uploads_app.
    change (uploads (CallSendToThingSpeak temperature humidity ppm :: evs))
      with (S (uploads evs)).
    destruct (alarm_events_serial evs Hser) as [_ Hu]. rewrite Hu. lia.
  - split; [intros; lia | intros _; exact Hout].
Qed.



(** C10, amended: every pass of [loop] that sees a reading ends, and each call
    of [sendToThingSpeak] it makes, one when the reading is at least 2500 ppm
    and 15 s have passed since [lastSendTime], none otherwise, is given the
    [int] copy of the reading together with what the locals [temperature] and
    [humidity] hold at the start of the pass.  Nothing is stored into them
    before the call: whatever the DHT11 delivers in this pass, the values
    uploaded are the ones the places of the locals held when the pass began. *)
Theorem upload_sends_what_the_locals_hold : forall fuel ppm dht (s : @Sketch float L),
  4000 + D < 2 ^ 32 ->
  4000 < Z.of_nat fuel ->
  exists s' evs,
    loop fuel (Some ppm) dht s = Some s' /\
    log s' = log s ++ evs /\
    uploads evs = (if gate_open ppm s then 1 else 0)%nat /\
    forall temperature humidity co2,
      In (CallSendToThingSpeak temperature humidity co2) evs ->
      temperature = stack_temperature s /\ humidity = stack_humidity s /\
      co2 = to_int ppm.
Proof.
  intros fuel ppm dht s HD Hfuel.
  destruct (loop_returns fuel ppm dht s HD Hfuel) as (s' & Hs' & Hout).
  destruct (upload_outcome_uploads _ _ _ _ _ Hout) as (evs & Hl & Hu & Hin).
  exists s', evs. split; [exact Hs' |]. split; [exact Hl |]. split; [exact Hu |].
  exact Hin.
Qed.

End Timing.

(** ** The blinking indicator *)

Section Blink.

Context {float : Type} {L : Type}.

Lemma ledBlink_step : forall ppm (s : @Sketch float L),
  (500 <= ulong_sub (millis (clock s)) (ledStartTime s) ->
     ledOn (ledBlink ppm s) = negb (ledOn s) /\
     ledStartTime (ledBlink ppm s) = to_long (millis (clock s)) /\
     clock (ledBlink ppm s) = clock s /\
     rgb (ledBlink ppm s) =
       if ledOn s then mkRgb 0 0 0
       else if (30000 <=? ppm) || (ppm <=? 0) then mkRgb 255 0 0
       else mkRgb 255 100 0) /\
  (ulong_sub (millis (clock s)) (ledStartTime s) < 500 -> ledBlink ppm s = s).
Proof.
  intros ppm s. unfold ledBlink.
  destruct (Z.leb_spec 500 (ulong_sub (millis (clock s)) (ledStartTime s))) as [Hge|Hlt].
  - split; [intros _ | intros; lia].
    cbn [ledOn set_ledStartTime set_ledOn clock].
    destruct (ledOn s); cbn [negb]; [| destruct (_ || _)]; repeat split.
  - split; [intros; lia | reflexivity].
Qed.

(** With calls every [k] ms, [r] calls after the stamp the elapsed time
    reaches 500 ms exactly when [r] reaches the ceiling of [500 / k]. *)
Lemma ceil_threshold : forall k r,
  0 < k -> 0 <= r -> (500 <= r * k <-> (500 + k - 1) / k <= r).
Proof.
  intros k r Hk Hr.
  pose proof (Z.div_mod (500 + k - 1) k ltac:(lia)) as Hdm.
  pose proof (Z.mod_pos_bound (500 + k - 1) k Hk) as Hm.
  set (m := (500 + k - 1) / k) in *.
  split; intros H; nia.
Qed.

Lemma ceil_bounds : forall k,
  0 < k -> 1 <= (500 + k - 1) / k /\ (500 + k - 1) / k * k < 500 + k.
Proof.
  intros k Hk.
  pose proof (Z.div_mod (500 + k - 1) k ltac:(lia)) as Hdm.
  pose proof (Z.mod_pos_bound (500 + k - 1) k Hk) as Hm.
  set (m := (500 + k - 1) / k) in *.
  split; nia.
Qed.

Lemma blink_phase : forall ppm k n r tl (s : @Sketch float L),
  0 < k <= 2 ^ 32 - 500 ->
  1 <= r <= (500 + k - 1) / k ->
  ledStartTime s = to_long (millis tl) ->
  fst (blinkAt ppm (every k (tl + r * k) n) s)
    = Z.to_nat ((Z.of_nat n + r - 1) / ((500 + k - 1) / k)).
Proof.
  intros ppm k n. induction n as [|n IH]; intros r tl s Hk Hr Hstamp.
  - cbn [every blinkAt fst]. rewrite Z.div_small by lia. reflexivity.
  - destruct (ceil_bounds k ltac:(lia)) as [Hm1 Hmk].
    set (m := (500 + k - 1) / k) in *.
    cbn [every blinkAt].
    set (t := tl + r * k).
    destruct (ledBlink_step ppm (set_clock t s)) as [Hon Hoff].
    cbn [clock ledStartTime ledOn set_clock] in Hon, Hoff.
    rewrite Hstamp, elapsed_since_stamp_small in Hon, Hoff by (unfold t; nia).
    replace (t - tl) with (r * k) in Hon, Hoff by (unfold t; lia).
    destruct (Z.eq_dec r m) as [Heq|Hne].
    + assert (Hge : 500 <= r * k) by (apply ceil_threshold; lia).
      destruct (Hon Hge) as (Hled & Hst & _).
      specialize (IH 1 t (ledBlink ppm (set_clock t s)) Hk ltac:(lia) Hst).
      replace (t + 1 * k) with (t + k) in IH by lia.
      destruct (blinkAt ppm (every k (t + k) n) (ledBlink ppm (set_clock t s))) as [c s2].
      cbn [fst] in *. rewrite Hled.
      cbn [ledOn set_clock]. destruct (ledOn s); cbn [negb Bool.eqb];
        rewrite IH;
        replace (Z.of_nat (S n) + r - 1) with (Z.of_nat n + 1 * m) by lia;
        replace (Z.of_nat n + 1 - 1) with (Z.of_nat n) by lia;
        rewrite Z.div_add by lia;
        rewrite Z2Nat.inj_add by (try apply Z.div_pos; lia); rewrite Nat.add_comm; reflexivity.
    + assert (Hlt : r * k < 500).
      { destruct (Z.lt_ge_cases (r * k) 500) as [Hl|Hg]; [exact Hl |].
        apply ceil_threshold in Hg; lia. }
      specialize (Hoff Hlt).
      specialize (IH (r + 1) tl (ledBlink ppm (set_clock t s)) Hk ltac:(lia)).
      rewrite Hoff in IH |- *.
      specialize (IH Hstamp).
      replace (tl + (r + 1) * k) with (t + k) in IH by (unfold t; lia).
      destruct (blinkAt ppm (every k (t + k) n) (set_clock t s)) as [c s2].
      cbn [fst] in *. cbn [ledOn set_clock]. rewrite Bool.eqb_reflx.
      rewrite IH. f_equal. f_equal. lia.
Qed.

(** C8, amended: a call of [ledBlink] toggles the LED, between off and the
    alert colour (red at 30000 ppm and above or at 0 and below, amber
    otherwise), exactly when at least 500 ms have passed on the 32-bit clock
    since the last toggle, and then restarts the count from the time of the
    call; otherwise it changes nothing.  So with calls every [k] ms, the first
    of them at the time of the stamp, the LED toggles once every
    [ceil (500 / k)] calls: the first [n + 1] calls toggle it
    [n / ceil (500 / k)] times, a number that depends on [k]. *)
Theorem blink_toggle_count : forall ppm k n t0 (s : @Sketch float L),
  0 < k <= 2 ^ 32 - 500 ->
  ledStartTime s = to_long (millis t0) ->
  fst (blinkAt ppm (every k t0 (S n)) s)
    = Z.to_nat (Z.of_nat n / ((500 + k - 1) / k)) /\
  forall s' : @Sketch float L,
    (500 <= ulong_sub (millis (clock s')) (ledStartTime s') ->
       ledOn (ledBlink ppm s') = negb (ledOn s') /\
       ledStartTime (ledBlink ppm s') = to_long (millis (clock s')) /\
       rgb (ledBlink ppm s') =
         if ledOn s' then mkRgb 0 0 0
         else if (30000 <=? ppm) || (ppm <=? 0) then mkRgb 255 0 0
         else mkRgb 255 100 0) /\
    (ulong_sub (millis (clock s')) (ledStartTime s') < 500 -> ledBlink ppm s' = s').
Proof.
  intros ppm k n t0 s Hk Hstamp. split.
  - destruct (ceil_bounds k ltac:(lia)) as [Hm1 Hmk].
    cbn [every blinkAt].
    destruct (ledBlink_step ppm (set_clock t0 s)) as [_ Hoff].
    cbn [clock ledStartTime set_clock] in Hoff.
    rewrite Hstamp, elapsed_since_stamp_small in Hoff by lia.
    rewrite Hoff by lia.
    pose proof (blink_phase ppm k n 1 t0 (set_clock t0 s) Hk ltac:(lia) Hstamp) as Hph.
    replace (t0 + 1 * k) with (t0 + k) in Hph by lia.
    destruct (blinkAt ppm (every k (t0 + k) n) (set_clock t0 s)) as [c s2].
    cbn [fst] in *. cbn [ledOn set_clock]. rewrite Bool.eqb_reflx.
    rewrite Hph. f_equal. f_equal. lia.
  - intros s'. destruct (ledBlink_step ppm s') as [Hon Hoff].
    split; [| exact Hoff].
    intros H. destruct (Hon H) as (A & B & _ & C). auto.
Qed.

End Blink.

(** ** The properties on the bench *)

Lemma unplugged_find_returns : forall target t (l : Unplugged),
  t <= snd (fst (stream_find target t l)) <= t + 1000 /\
  (fst (fst (stream_find target t l)) = false ->
   t + 1 <= snd (fst (stream_find target t l))).
Proof. intros target t l. cbn. unfold STREAM_TIMEOUT. lia. Qed.


Lemma modem_find_returns : forall target t (l : Modem),
  t <= snd (fst (stream_find target t l)) <= t + 1000 /\
  (fst (fst (stream_find target t l)) = false ->
   t + 1 <= snd (fst (stream_find target t l))).
Proof. intros target t l. cbn. unfold MODEM_LATENCY. split; [lia | discriminate]. Qed.

(** C3, as stated, fails: nothing is connected, the three commands of the
    upload at 20 s all report FAIL and none is counted, and yet
    [lastSendTime] goes from 0 to 29500, the time at which the upload
    returned; ten seconds later the 15 s test fails, so the next attempt has
    been pushed back. *)
Lemma failed_upload_moves_timestamp :
  lastSendTime (elapse 20000 bench) = 0 /\
  option_map (fun s => (countTrueCommand s, last_call s, lastSendTime s))
    (telemetry 5 Unassigned Unassigned 3000 (elapse 20000 bench))
    = Some (0, Some (SerialPrint "AT+CIPCLOSE: FAIL"), 29500) /\
  option_map (fun s => gate_open 3000 (elapse 10000 s))
    (telemetry 5 Unassigned Unassigned 3000 (elapse 20000 bench))
    = Some false.
Proof. vm_compute. split_ands; reflexivity. Qed.

Lemma timestamp_follows_every_upload_witness :
  exists s',
    telemetry 4001 Unassigned Unassigned 3000 (elapse 20000 bench) = Some s' /\
    lastSendTime s' = to_long (millis (clock s')) /\
    clock (elapse 20000 bench) + 1500 <= clock s'.
Proof.
  destruct (timestamp_follows_every_upload 1000 unplugged_find_returns
              4001%nat Unassigned Unassigned 3000 (elapse 20000 bench))
    as (s' & Hs & Hopen & _).
  - vm_compute. reflexivity.
  - vm_compute. reflexivity.
  - exists s'. split; [exact Hs |].
    destruct Hopen as (A & B & _); [vm_compute; discriminate |].
    split; [exact A | exact B].
Defined.

Lemma at_most_one_timer_witness :
  exists s1,
    loop 1 (Some 6000) None bench = Some s1 /\
    (SimpleTimer.numTimers (timer s1) <= 1)%nat /\
    SimpleTimer.numTimers (timer (cancelTimer s1)) = 0%nat /\
    log (buzzerSystem Normal s1) = log s1 ++ [DeleteTimer 0; Tone 14 NOTE_C5 1000].
Proof.
  eexists. split; [vm_compute; reflexivity |].
  match goal with
  | |- context [cancelTimer ?s1] => destruct (at_most_one_timer s1) as (H1 & _ & H3)
  end.
  - apply (reach_loop 1%nat (Some 6000) None bench);
      [apply reach_power_on | vm_compute; reflexivity].
  - split; [exact H1 |].
    destruct (H3 Normal) as (Hl & Hc & _); [vm_compute; discriminate |].
    split; [exact Hc | exact Hl].
Defined.

Lemma same_level_is_idle_witness :
  exists s',
    onReading 1 Unassigned Unassigned 1500 (buzzerSystem Elevated bench) = Some s' /\
    timerId s' = timerId (buzzerSystem Elevated bench) /\
    timer s' = timer (buzzerSystem Elevated bench) /\
    alarm_events (log s') = alarm_events (log (buzzerSystem Elevated bench)).
Proof.
  destruct (onReading 1 Unassigned Unassigned 1500 (buzzerSystem Elevated bench))
    as [s'|] eqn:E; [| vm_compute in E; discriminate].
  exists s'. split; [reflexivity |].
  destruct (same_level_is_idle Elevated bench) as [_ H].
  destruct (H 1%nat Unassigned Unassigned 1500 s' eq_refl E) as (A & B & _ & C).
  split; [exact A |]. split; [exact B | exact C].
Defined.





(** C8, as stated, fails: the number of toggles depends on how often
    [ledBlink] is called.  Calls every 10 ms and every 200 ms from time 0
    toggle the LED 5 and 4 times before 3000 ms; over 2000 ms with the end
    included they toggle it 4 and 3 times, whether the first call is at 0 or
    one period later.  They agree, on 3 toggles, when the calls are those at
    0, 10, ... 1990 and at 0, 200, ... 1800. *)
Lemma blink_count_depends_on_call_rate :
  fst (blinkAt 1500 (every 10 0 300) bench) = 5%nat /\
  fst (blinkAt 1500 (every 200 0 15) bench) = 4%nat /\
  fst (blinkAt 1500 (every 10 0 201) bench) = 4%nat /\
  fst (blinkAt 1500 (every 200 0 11) bench) = 3%nat /\
  fst (blinkAt 1500 (every 10 10 200) bench) = 4%nat /\
  fst (blinkAt 1500 (every 200 200 10) bench) = 3%nat /\
  fst (blinkAt 1500 (every 10 0 200) bench) = 3%nat /\
  fst (blinkAt 1500 (every 200 0 10) bench) = 3%nat.
Proof. vm_compute. split_ands; reflexivity. Qed.

Lemma blink_toggle_count_witness :
  fst (blinkAt 1500 (every 10 0 200) bench) = Z.to_nat (199 / 50) /\
  fst (blinkAt 1500 (every 200 0 15) bench) = Z.to_nat (14 / 3).
Proof.
  split.
  - refine (proj1 (blink_toggle_count 1500 10 199 0 bench _ _)).
    + vm_compute. split; [reflexivity | discriminate].
    + reflexivity.
  - refine (proj1 (blink_toggle_count 1500 200 14 0 bench _ _)).
    + vm_compute. split; [reflexivity | discriminate].
    + reflexivity.
Defined.

(** C10, as stated, fails: the places of the locals keep what an earlier pass
    stored there.  The pass at 4 s measures 21 degrees and 40 %.  The pass at
    24 s reads 3000 ppm and uploads: the temperature and the humidity given
    to [sendToThingSpeak] are 21 and 40, the most recently measured values,
    and they are what goes out in the request.  The DHT11 delivers 25 and 50
    in that pass, after the upload. *)
Lemma upload_carries_last_measurement :
  option_map (fun s => (filter is_upload (log s), stack_temperature s, stack_humidity s))
    (passes 5 [(0, None, None); (4000, None, Some (21, 40))] bench)
    = Some ([], Assigned 21, Assigned 40) /\
  option_map (fun s => (filter is_upload (log s), stack_temperature s, stack_humidity s))
    (passes 5 [(0, None, None); (4000, None, Some (21, 40));
               (20000, Some 3000, Some (25, 50))] bench)
    = Some ([CallSendToThingSpeak (Assigned 21) (Assigned 40) 3000],
            Assigned 25, Assigned 50) /\
  request_of (float := Z) (Assigned 21) (Assigned 40) 3000
    = ("GET /update?api_key=API_KEY&field1=21.00&field2=40.00&field3=3000" ++ crlf)%string.
Proof. vm_compute. split_ands; reflexivity. Qed.

Lemma upload_sends_what_the_locals_hold_witness :
  exists s' evs,
    loop 4001 (Some 3000) (Some (25, 50))
      (scribble (Assigned 21) (Assigned 40) (elapse 20000 bench)) = Some s' /\
    log s' = log (elapse 20000 bench) ++ evs /\
    uploads evs = 1%nat /\
    forall temperature humidity co2,
      In (CallSendToThingSpeak temperature humidity co2) evs ->
      temperature = Assigned 21 /\ humidity = Assigned 40 /\ co2 = 3000.
Proof.
  destruct (upload_sends_what_the_locals_hold 1000 unplugged_find_returns
              4001%nat 3000 (Some (25, 50))
              (scribble (Assigned 21) (Assigned 40) (elapse 20000 bench)))
    as (s' & evs & Hs & Hl & Hu & Hin).
  - vm_compute. reflexivity.
  - vm_compute. reflexivity.
  - exists s', evs. split; [exact Hs |]. split; [exact Hl |]. split; [exact Hu | exact Hin].
Defined.

(** * Further properties of the sketch *)

(** ** What is written to the ESP8266 *)

Lemma string_app_assoc : forall a b c : string,
  ((a ++ b) ++ c)%string = (a ++ b ++ c)%string.
Proof.
  induction a as [|x a IH]; intros b c; cbn; [reflexivity |].
  rewrite IH. reflexivity.
Qed.

Section Transcript.

Context {float : Type} {L : Type} {link : Stream L} {ftext : FloatText float}.

(** The link keeps a record of what was written to it, and reading does not
    change that record. *)
Variable transcript : L -> string.

Hypothesis print_appends : forall text l,
  transcript (stream_print text l) = (transcript l ++ text)%string.

Hypothesis println_appends : forall text l,
  transcript (stream_println text l) = (transcript l ++ text ++ crlf)%string.

Hypothesis find_keeps : forall target t l,
  transcript (snd (stream_find target t l)) = transcript l.

Variable D : Z.

Hypothesis find_returns : forall target t (l : L),
  t <= snd (fst (stream_find target t l)) <= t + D /\
  (fst (fst (stream_find target t l)) = false ->
   t + 1 <= snd (fst (stream_find target t l))).

Lemma awaitResponse_transcript :
  forall fuel startTime maxTime readResponse (s s' : @Sketch float L),
  awaitResponse fuel startTime maxTime readResponse s = Some s' ->
  transcript (esp8266 s') = transcript (esp8266 s).
Proof.
  induction fuel as [|fuel IH]; intros startTime maxTime readResponse s s'; cbn [awaitResponse].
  - destruct (_ <? _); intros H; [discriminate | now inversion H].
  - destruct (_ <? _); [| intros H; now inversion H].
    pose proof (find_keeps readResponse (clock s) (esp8266 s)) as Hk.
    destruct (stream_find readResponse (clock s) (esp8266 s)) as [[hit t'] l'].
    cbn [snd] in Hk.
    destruct hit; intros H.
    + inversion H; subst. exact Hk.
    + apply IH in H. rewrite H. exact Hk.
Qed.

Lemma sendCommand_transcript :
  forall fuel command maxTime readResponse (s s' : @Sketch float L),
  sendCommand fuel command maxTime readResponse s = Some s' ->
  transcript (esp8266 s') = (transcript (esp8266 s) ++ command ++ crlf)%string.
Proof.
  intros fuel command maxTime readResponse s s'. unfold sendCommand.
  destruct (awaitResponse _ _ _ _ _) as [s5|] eqn:Hw; [| discriminate].
  apply awaitResponse_transcript in Hw.
  cbn [esp8266 set_esp8266 emit set_log] in Hw.
  rewrite println_appends in Hw.
  intros H; inversion H; subst s'; clear H.
  destruct (found s5) eqn:Hf;
    cbn [found set_countTrueCommand emit set_log]; rewrite ?Hf; cbn [negb];
    cbn [esp8266 set_found set_countTrueCommand emit set_log]; exact Hw.
Qed.

(** X1: on a link that records what is written and whose [find] returns,
    [sendToThingSpeak] always ends and has then written, in this order and
    whatever the verdicts of the commands, the AT+CIPSTART line, the
    AT+CIPSEND line, the request and the AT+CIPCLOSE line; nothing is skipped
    after a failure.  The AT+CIPSEND line announces two characters more than
    the request that is written after it: the request already ends with its
    line terminator and [print] adds none. *)
Theorem upload_writes_all_steps :
  forall fuel temperature humidity co2 (s : @Sketch float L),
  4000 + D < 2 ^ 32 ->
  4000 < Z.of_nat fuel ->
  exists s',
    sendToThingSpeak fuel temperature humidity co2 s = Some s' /\
    transcript (esp8266 s') =
      (transcript (esp8266 s)
       ++ (CIPSTART ++ crlf)
       ++ ("AT+CIPSEND="
             ++ String_of_int (Z.of_nat (String.length (request_of temperature humidity co2)) + 2)
             ++ crlf)
       ++ request_of temperature humidity co2
       ++ ("AT+CIPCLOSE" ++ crlf))%string /\
    exists body, request_of temperature humidity co2 = (body ++ crlf)%string.
Proof.
  intros fuel temperature humidity co2 s HD Hfuel.
  destruct (sendToThingSpeak_returns D find_returns fuel temperature humidity co2 s HD Hfuel)
    as (s' & Hs' & _).
  exists s'. split; [exact Hs' |]. split.
  - unfold sendToThingSpeak in Hs'.
    apply bind_Some in Hs'. destruct Hs' as (s1 & H1 & Hs').
    apply bind_Some in Hs'. destruct Hs' as (s2 & H2 & H3).
    apply sendCommand_transcript in H1, H2, H3.
    cbn [esp8266 set_esp8266 delay set_clock emit set_log] in H1, H3.
    rewrite print_appends in H3.
    rewrite H3, H2, H1.
    fold CIPSTART.
    rewrite !string_app_assoc. reflexivity.
  - unfold request_of.
    eexists. rewrite <- !string_app_assoc. reflexivity.
Qed.

Lemma connectToWiFi_returns : forall fuel (s : @Sketch float L),
  10000 + D < 2 ^ 32 ->
  10000 < Z.of_nat fuel ->
  exists s',
    connectToWiFi fuel s = Some s' /\
    clock s <= clock s' <= clock s + 14000 + 3 * D.
Proof.
  intros fuel s HD Hfuel. unfold connectToWiFi.
  destruct (sendCommand_returns D find_returns fuel "AT" 2000 "OK" s) as (s1 & H1 & B1);
    try (change (to_ulong 2000) with 2000; lia).
  rewrite H1. cbn [bind].
  destruct (sendCommand_returns D find_returns fuel "AT+CWMODE=1" 2000 "OK" s1)
    as (s2 & H2 & B2); try (change (to_ulong 2000) with 2000; lia).
  rewrite H2. cbn [bind].
  match goal with
  | |- context [sendCommand fuel ?c 10000 ?r s2] =>
      destruct (sendCommand_returns D find_returns fuel c 10000 r s2) as (s3 & H3 & B3)
  end; try (change (to_ulong 10000) with 10000; lia).
  exists s3. split; [exact H3 |].
  change (to_ulong 2000) with 2000 in B1, B2.
  change (to_ulong 10000) with 10000 in B3. lia.
Qed.

(** X2: on a link that records what is written and whose [find] returns,
    [setup] always ends, within 14 s plus three calls of [find]; it has then
    set the LED to blue, written the three commands AT, AT+CWMODE=1 and
    AT+CWJAP in this order whatever their verdicts, reset [found], and left
    the level and the timer of the alarm as they were. *)
Theorem setup_brings_up_link : forall fuel (s : @Sketch float L),
  10000 + D < 2 ^ 32 ->
  10000 < Z.of_nat fuel ->
  exists s',
    setup fuel s = Some s' /\
    rgb s' = mkRgb 0 0 255 /\
    transcript (esp8266 s') =
      (transcript (esp8266 s) ++ ("AT" ++ crlf) ++ ("AT+CWMODE=1" ++ crlf)
       ++ (CWJAP ++ crlf))%string /\
    clock s <= clock s' <= clock s + 14000 + 3 * D /\
    found s' = false /\
    timerId s' = timerId s /\ timer s' = timer s /\
    lastCO2Threshold s' = lastCO2Threshold s.
Proof.
  intros fuel s HD Hfuel. unfold setup.
  match goal with
  | |- context [connectToWiFi fuel ?st] =>
      destruct (connectToWiFi_returns fuel st HD Hfuel) as (s' & Hs' & Hc)
  end.
  exists s'. split; [exact Hs' |].
  pose proof (connectToWiFi_frame _ _ _ Hs') as (Hcore & _).
  unfold core in Hcore. inversion Hcore as [[Hi Hl Hco Hb Hls Hst Hon Hms Htm Hrgb]].
  unfold connectToWiFi in Hs'.
  apply bind_Some in Hs'. destruct Hs' as (s1 & H1 & Hs').
  apply bind_Some in Hs'. destruct Hs' as (s2 & H2 & H3).
  pose proof (sendCommand_frame _ _ _ _ _ _ H3) as (_ & Hfound & _).
  apply sendCommand_transcript in H1, H2, H3.
  split_ands.
  - rewrite Hrgb. reflexivity.
  - rewrite H3, H2, H1. fold CWJAP. rewrite !string_app_assoc. reflexivity.
  - exact (proj1 Hc).
  - exact (proj2 Hc).
  - exact Hfound.
  - rewrite Hi. reflexivity.
  - rewrite Htm. reflexivity.
  - rewrite Hl. reflexivity.
Qed.

End Transcript.

(** ** A module that never answers, a module that always answers *)

Section DeadLink.

Context {float : Type} {L : Type} {link : Stream L} {ftext : FloatText float}.

Variable D : Z.

Hypothesis find_returns : forall target t (l : L),
  t <= snd (fst (stream_find target t l)) <= t + D /\
  (fst (fst (stream_find target t l)) = false ->
   t + 1 <= snd (fst (stream_find target t l))).

Hypothesis never_answers : forall target t (l : L),
  fst (fst (stream_find target t l)) = false.

Lemma sendCommand_unanswered :
  forall fuel command maxTime readResponse (s : @Sketch float L),
  found s = false ->
  to_ulong maxTime + D < 2 ^ 32 ->
  to_ulong maxTime < Z.of_nat fuel ->
  exists s',
    sendCommand fuel command maxTime readResponse s = Some s' /\
    log s' = log s ++ report (countTrueCommand s) command ": FAIL" /\
    countTrueCommand s' = countTrueCommand s /\
    clock s + to_ulong maxTime <= clock s' <= clock s + to_ulong maxTime + D /\
    found s' = false.
Proof.
  intros fuel command maxTime readResponse s Hfound HD Hfuel.
  destruct (sendCommand_total D find_returns fuel command maxTime readResponse s
              Hfound HD Hfuel) as (s' & Hs' & Hc & Hv).
  exists s'. split; [exact Hs' |].
  pose proof (sendCommand_frame _ _ _ _ _ _ Hs') as (_ & Hf & _).
  destruct Hv as [(_ & _ & t & l & _ & _ & Hcall) | (Hl & Hn & Hm)].
  - pose proof (never_answers readResponse t l) as Hno.
    rewrite Hcall in Hno. discriminate.
  - split_ands; try assumption; lia.
Qed.

(** X3: when the module never answers, [setup] still ends: the three commands
    of [connectToWiFi] each run to their timeout, so it takes at least 14 s,
    reports FAIL three times on the debug monitor and counts no command. *)
Theorem setup_without_module : forall fuel (s : @Sketch float L),
  found s = false ->
  10000 + D < 2 ^ 32 ->
  10000 < Z.of_nat fuel ->
  exists s',
    setup fuel s = Some s' /\
    countTrueCommand s' = countTrueCommand s /\
    clock s + 14000 <= clock s' <= clock s + 14000 + 3 * D /\
    log s' = log s ++ report (countTrueCommand s) "AT" ": FAIL"
                   ++ report (countTrueCommand s) "AT+CWMODE=1" ": FAIL"
                   ++ report (countTrueCommand s) CWJAP ": FAIL".
Proof.
  intros fuel s Hfound HD Hfuel. unfold setup, connectToWiFi.
  set (s0 := analogWrite BLUE 255 (analogWrite GREEN 0 (analogWrite RED 0 s))).
  destruct (sendCommand_unanswered fuel "AT" 2000 "OK" s0) as (s1 & H1 & L1 & N1 & C1 & F1);
    try (change (to_ulong 2000) with 2000; lia); [exact Hfound |].
  rewrite H1. cbn [bind].
  destruct (sendCommand_unanswered fuel "AT+CWMODE=1" 2000 "OK" s1)
    as (s2 & H2 & L2 & N2 & C2 & F2);
    try (change (to_ulong 2000) with 2000; lia); [exact F1 |].
  rewrite H2. cbn [bind].
  fold CWJAP.
  destruct (sendCommand_unanswered fuel CWJAP 10000 "OK" s2)
    as (s3 & H3 & L3 & N3 & C3 & F3);
    try (change (to_ulong 10000) with 10000; lia); [exact F2 |].
  exists s3. split; [exact H3 |].
  change (to_ulong 2000) with 2000 in C1, C2.
  change (to_ulong 10000) with 10000 in C3.
  change (clock s0) with (clock s) in C1.
  change (log s0) with (log s) in L1.
  change (countTrueCommand s0) with (countTrueCommand s) in N1, L1.
  split_ands; try lia.
  rewrite L3, L2, L1, N2, N1. rewrite <- !app_assoc. reflexivity.
Qed.

(** X4: when the module never answers, an upload that the 15 s test lets
    through still runs all its steps: the pass is held for at least 9.5 s
    (4 s, 2 s and 2 s of timeouts and the 1.5 s delay), no command is counted,
    and [lastSendTime] is stamped when it ends. *)
Theorem upload_without_module :
  forall fuel temperature humidity ppm (s : @Sketch float L),
  found s = false ->
  4000 + D < 2 ^ 32 ->
  4000 < Z.of_nat fuel ->
  15000 <= ulong_sub (millis (clock s)) (lastSendTime s) ->
  exists s',
    telemetry fuel temperature humidity ppm s = Some s' /\
    clock s + 9500 <= clock s' <= clock s + 9500 + 3 * D /\
    countTrueCommand s' = countTrueCommand s /\
    lastSendTime s' = to_long (millis (clock s')).
Proof.
  intros fuel temperature humidity ppm s Hfound HD Hfuel Hgate.
  unfold telemetry. change (to_ulong 15000) with 15000.
  apply Z.leb_le in Hgate. rewrite Hgate.
  unfold sendToThingSpeak.
  set (s0 := emit (CallSendToThingSpeak temperature humidity ppm) s).
  match goal with
  | |- context [sendCommand fuel ?c 4000 ?r s0] =>
      destruct (sendCommand_unanswered fuel c 4000 r s0) as (s1 & H1 & _ & N1 & C1 & F1)
  end; try (change (to_ulong 4000) with 4000; lia); [exact Hfound |].
  rewrite H1. cbn [bind].
  match goal with
  | |- context [sendCommand fuel ?c 2000 ?r s1] =>
      destruct (sendCommand_unanswered fuel c 2000 r s1) as (s2 & H2 & _ & N2 & C2 & F2)
  end; try (change (to_ulong 2000) with 2000; lia); [exact F1 |].
  rewrite H2. cbn [bind].
  match goal with
  | |- context [sendCommand fuel ?c 2000 ?r ?st] =>
      destruct (sendCommand_unanswered fuel c 2000 r st) as (s3 & H3 & _ & N3 & C3 & F3)
  end; try (change (to_ulong 2000) with 2000; lia); [exact F2 |].
  rewrite H3. cbn [bind].
  eexists. split; [reflexivity |].
  change (to_ulong 4000) with 4000 in C1.
  change (to_ulong 2000) with 2000 in C2, C3.
  cbn [clock countTrueCommand lastSendTime set_lastSendTime set_esp8266 delay set_clock]
    in C3, N3 |- *.
  change (clock s0) with (clock s) in C1.
  change (countTrueCommand s0) with (countTrueCommand s) in N1.
  split_ands; first [lia | reflexivity].
Qed.

End DeadLink.

Section AnsweringLink.

Context {float : Type} {L : Type} {link : Stream L} {ftext : FloatText float}.

Variable D : Z.

Hypothesis find_returns : forall target t (l : L),
  t <= snd (fst (stream_find target t l)) <= t + D /\
  (fst (fst (stream_find target t l)) = false ->
   t + 1 <= snd (fst (stream_find target t l))).

Hypothesis always_answers : forall target t (l : L),
  fst (fst (stream_find target t l)) = true.

Lemma sendCommand_answered :
  forall fuel command maxTime readResponse (s : @Sketch float L),
  found s = false ->
  0 < to_ulong maxTime ->
  exists s',
    sendCommand (S fuel) command maxTime readResponse s = Some s' /\
    log s' = log s ++ report (countTrueCommand s) command (": OK" ++ crlf) /\
    countTrueCommand s' = countTrueCommand s + 1 /\
    clock s <= clock s' <= clock s + D /\
    found s' = false.
Proof.
  intros fuel command maxTime readResponse s Hfound Hpos.
  unfold sendCommand. cbn [awaitResponse clock esp8266 set_esp8266 emit set_log].
  rewrite elapsed_since_stamp_small by lia.
  replace (clock s - clock s) with 0 by lia.
  destruct (Z.ltb_spec 0 (to_ulong maxTime)) as [_|Hle]; [| lia].
  pose proof (always_answers readResponse (clock s) (stream_println command (esp8266 s))) as Hyes.
  pose proof (find_returns readResponse (clock s) (stream_println command (esp8266 s)))
    as [Ht _].
  destruct (stream_find readResponse (clock s) (stream_println command (esp8266 s)))
    as [[hit t'] l'].
  cbn [fst snd] in Hyes, Ht. subst hit.
  eexists. split; [reflexivity |].
  cbn [found clock esp8266 log countTrueCommand set_found set_esp8266 set_clock
       set_countTrueCommand emit set_log negb].
  split_ands; try reflexivity; try lia.
  unfold report. rewrite <- !app_assoc. reflexivity.
Qed.

(** X5: when the module answers every command, [setup] counts three commands,
    reports OK three times with the running count, and is done within three
    calls of [find]. *)
Theorem setup_with_module : forall fuel (s : @Sketch float L),
  found s = false ->
  exists s',
    setup (S fuel) s = Some s' /\
    countTrueCommand s' = countTrueCommand s + 3 /\
    clock s <= clock s' <= clock s + 3 * D /\
    log s' = log s ++ report (countTrueCommand s) "AT" (": OK" ++ crlf)
                   ++ report (countTrueCommand s + 1) "AT+CWMODE=1" (": OK" ++ crlf)
                   ++ report (countTrueCommand s + 2) CWJAP (": OK" ++ crlf).
Proof.
  intros fuel s Hfound. unfold setup, connectToWiFi.
  set (s0 := analogWrite BLUE 255 (analogWrite GREEN 0 (analogWrite RED 0 s))).
  destruct (sendCommand_answered fuel "AT" 2000 "OK" s0) as (s1 & H1 & L1 & N1 & C1 & F1);
    [exact Hfound | reflexivity |].
  rewrite H1. cbn [bind].
  destruct (sendCommand_answered fuel "AT+CWMODE=1" 2000 "OK" s1)
    as (s2 & H2 & L2 & N2 & C2 & F2); [exact F1 | reflexivity |].
  rewrite H2. cbn [bind].
  fold CWJAP.
  destruct (sendCommand_answered fuel CWJAP 10000 "OK" s2)
    as (s3 & H3 & L3 & N3 & C3 & F3); [exact F2 | reflexivity |].
  exists s3. split; [exact H3 |].
  change (clock s0) with (clock s) in C1.
  change (log s0) with (log s) in L1.
  change (countTrueCommand s0) with (countTrueCommand s) in N1, L1.
  split_ands; try lia.
  rewrite L3, L2, L1, N2, N1. rewrite <- !app_assoc.
  replace (countTrueCommand s + 1 + 1) with (countTrueCommand s + 2) by lia.
  reflexivity.
Qed.

End AnsweringLink.

(** ** Invariants of the globals *)

Section Globals.

Context {float : Type} {L : Type} {link : Stream L} {ftext : FloatText float}.

Lemma telemetry_found : forall fuel temperature humidity ppm (s s' : @Sketch float L),
  telemetry fuel temperature humidity ppm s = Some s' ->
  found s = false -> found s' = false.
Proof.
  intros fuel temperature humidity ppm s s' H Hf. unfold telemetry in H.
  destruct (_ <=? _); [| inversion H; subst; exact Hf].
  apply bind_Some in H. destruct H as (s1 & H1 & H).
  inversion H; subst s'; clear H.
  apply sendToThingSpeak_frame in H1. destruct H1 as (_ & F & _). exact F.
Qed.

Lemma alertAndUpdate_found :
  forall fuel temperature humidity ppm (s : @Sketch float L) level s',
  alertAndUpdate fuel temperature humidity ppm s = Some (level, s') ->
  found s = false -> found s' = false.
Proof.
  intros fuel temperature humidity ppm s level s' H Hf. unfold alertAndUpdate in H.
  destruct (band ppm) as [[thr ind] inElse].
  apply bind_Some in H. destruct H as (s4 & H4 & H).
  inversion H; subst level s'; clear H.
  match type of H4 with
  | context [indicate ind (to_int ppm) ?st] =>
      assert (H3 : found (indicate ind (to_int ppm) st) = false)
  end.
  { destruct (offline_indicate ind (to_int ppm)
                (emit (LcdPrint "  ") (emit (LcdPrint "ppm") (emit (LcdPrint "  ")
                   (emit (LcdPrintInt ppm) (set_co2Level (to_int ppm) s))))))
      as (_ & _ & F & _).
    rewrite F. exact Hf. }
  destruct inElse.
  - eapply telemetry_found; eassumption.
  - inversion H4; subst s4. exact H3.
Qed.

Lemma timer_run_found : forall s : @Sketch float L, found (timer_run s) = found s.
Proof. intros s. destruct (offline_timer_run s) as (_ & _ & F & _). exact F. Qed.

Lemma loop_found : forall fuel co2 dht (s s' : @Sketch float L),
  loop fuel co2 dht s = Some s' -> found s = false -> found s' = false.
Proof.
  intros fuel co2 dht s s' H Hf. unfold loop in H.
  apply bind_Some in H. destruct H as (s3 & H3 & H).
  assert (F3 : found s3 = false).
  { destruct co2 as [ppm|].
    - unfold onReading in H3.
      apply bind_Some in H3. destruct H3 as ([level s4] & H4 & H3).
      inversion H3; subst s3; clear H3. cbn [fst snd].
      destruct (offline_buzzerSystem level s4) as (_ & _ & F & _). rewrite F.
      eapply alertAndUpdate_found; [exact H4 |].
      rewrite timer_run_found. exact Hf.
    - inversion H3; subst s3. rewrite timer_run_found. exact Hf. }
  pose proof (offline_measureEnvironment dht (stack_temperature s) (stack_humidity s) s3)
    as (_ & _ & Fm & _).
  destruct (measureEnvironment dht (stack_temperature s) (stack_humidity s) s3)
    as [[[ok t'] h'] s4].
  cbn [snd] in Fm. cbv zeta in H.
  destruct ok; inversion H; subst s'; cbn; rewrite Fm; exact F3.
Qed.

(** X6: [found] is false in every reachable state: [sendCommand] always
    resets it, so no command starts with the answer of an earlier one. *)
Theorem found_is_reset : forall s : @Sketch float L, reachable s -> found s = false.
Proof.
  intros s H.
  induction H as [t0 l0 | fuel s s' _ IH Hs | ms s _ IH | temperature humidity s _ IH
                 | fuel temperature humidity ppm s level s' _ IH Hr
                 | fuel co2 dht s s' _ IH Hl].
  - reflexivity.
  - unfold setup, connectToWiFi in Hs.
    apply bind_Some in Hs. destruct Hs as (s1 & _ & Hs).
    apply bind_Some in Hs. destruct Hs as (s2 & _ & H3).
    apply sendCommand_frame in H3. destruct H3 as (_ & F & _). exact F.
  - exact IH.
  - exact IH.
  - eapply alertAndUpdate_found; [exact Hr |].
    rewrite timer_run_found. exact IH.
  - eapply loop_found; eassumption.
Qed.

(** *** The level and its timer *)

Lemma classify_range : forall ppm, 0 <= classify ppm <= 5.
Proof.
  intros ppm. unfold classify. rewrite band_cases.
  repeat match goal with
  | |- context [?a <? ?b] => destruct (Z.ltb_spec a b)
  end; cbn; lia.
Qed.

Lemma live_periods_run : forall now tm,
  live_periods (snd (SimpleTimer.run now tm)) = live_periods tm.
Proof.
  intros now tm. unfold live_periods.
  induction tm as [|[sl|] rest IH]; cbn [SimpleTimer.run]; [reflexivity | |].
  - destruct (SimpleTimer.run now rest) as [k rest']. cbn [snd] in IH.
    destruct (_ <=? _); cbn [snd flat_map SimpleTimer.delay]; rewrite IH; reflexivity.
  - destruct (SimpleTimer.run now rest) as [k rest']. cbn [snd] in IH.
    cbn [snd flat_map app]. exact IH.
Qed.

Lemma iter_buzzerManager_level : forall k (s : @Sketch float L),
  lastCO2Threshold (Nat.iter k buzzerManager s) = lastCO2Threshold s.
Proof.
  induction k as [|k IH]; intros s; [reflexivity |].
  cbn [Nat.iter]. exact (IH s).
Qed.

Lemma timer_run_level : forall s : @Sketch float L,
  lastCO2Threshold (timer_run s) = lastCO2Threshold s /\
  live_periods (timer (timer_run s)) = live_periods (timer s).
Proof.
  intros s. unfold timer_run.
  pose proof (live_periods_run (clock s) (timer s)) as Hp.
  destruct (SimpleTimer.run (clock s) (timer s)) as [k tm]. cbn [snd] in Hp.
  rewrite iter_buzzerManager_level.
  destruct (one_timer_iter_buzzerManager k (set_timer tm s)) as [_ Ht].
  rewrite Ht. split; [reflexivity | exact Hp].
Qed.

Lemma steady_quiet : forall s s' : @Sketch float L, quiet s s' -> steady s -> steady s'.
Proof.
  intros s s' Hq (H1 & H2 & H3).
  split; [eapply one_timer_quiet; eassumption |].
  destruct Hq as (_ & Hl & _ & _ & Ht & _).
  unfold level_known, timer_matches_level. rewrite Hl, Ht. split; assumption.
Qed.

Lemma steady_timer_run : forall s : @Sketch float L,
  steady s -> steady (timer_run (emit (LcdSetCursor 0 0) s)).
Proof.
  intros s (H1 & H2 & H3).
  split; [apply timer_run_pass_one_timer; exact H1 |].
  destruct (timer_run_level (emit (LcdSetCursor 0 0) s)) as [Hl Hp].
  unfold level_known, timer_matches_level. rewrite Hl, Hp. split; assumption.
Qed.

Lemma steady_buzzerSystem : forall level (s : @Sketch float L),
  0 <= level <= 5 -> steady s -> steady (buzzerSystem level s).
Proof.
  intros level s Hrange (H1 & H2 & H3).
  destruct (Z.eq_dec level (lastCO2Threshold s)) as [E|N].
  - subst level. rewrite buzzerSystem_same. repeat split; assumption.
  - split; [apply buzzerSystem_one_timer; exact H1 |].
    destruct (buzzerSystem_transition level s H1 N) as (_ & Ht & _).
    unfold level_known, timer_matches_level.
    rewrite buzzerSystem_records_level, Ht.
    split; [right; exact Hrange |].
    destruct (alarmPeriod level); reflexivity.
Qed.

Lemma steady_alertAndUpdate :
  forall fuel temperature humidity ppm (s : @Sketch float L) level s',
  alertAndUpdate fuel temperature humidity ppm s = Some (level, s') ->
  steady s -> steady s'.
Proof.
  intros fuel temperature humidity ppm s level s' H Hs.
  apply alertAndUpdate_quiet in H. destruct H as [_ Hq].
  eapply steady_quiet; [exact Hq |]. exact Hs.
Qed.

Lemma steady_loop : forall fuel co2 dht (s s' : @Sketch float L),
  loop fuel co2 dht s = Some s' -> steady s -> steady s'.
Proof.
  intros fuel co2 dht s s' H Hs. unfold loop in H.
  apply bind_Some in H. destruct H as (s3 & H3 & H).
  assert (S3 : steady s3).
  { pose proof (steady_timer_run s Hs) as Hrun.
    destruct co2 as [ppm|].
    - unfold onReading in H3.
      apply bind_Some in H3. destruct H3 as ([level s4] & H4 & H3).
      inversion H3; subst s3; clear H3. cbn [fst snd].
      pose proof (alertAndUpdate_quiet _ _ _ _ _ _ _ H4) as [Hlevel _].
      apply steady_buzzerSystem.
      + subst level. apply classify_range.
      + eapply steady_alertAndUpdate; eassumption.
    - inversion H3; subst s3. exact Hrun. }
  pose proof (measureEnvironment_quiet dht (stack_temperature s) (stack_humidity s) s3)
    as Hq0.
  destruct (measureEnvironment dht (stack_temperature s) (stack_humidity s) s3)
    as [[[ok t'] h'] s4].
  cbn [snd] in Hq0. cbv zeta in H.
  assert (Hq : quiet s3 (set_stack_humidity h' (set_stack_temperature t' s4))).
  { eapply quiet_trans; [exact Hq0 | repeat split]. }
  destruct ok; inversion H; subst s'; clear H.
  - eapply steady_quiet; [| exact S3].
    repeat (eapply quiet_trans; [| apply quiet_emit; reflexivity]).
    exact Hq.
  - eapply steady_quiet; [exact Hq | exact S3].
Qed.

Lemma reachable_steady : forall s : @Sketch float L, reachable s -> steady s.
Proof.
  intros s H.
  induction H as [t0 l0 | fuel s s' _ IH Hs | ms s _ IH | temperature humidity s _ IH
                 | fuel temperature humidity ppm s level s' _ IH Hr
                 | fuel co2 dht s s' _ IH Hl].
  - split; [left; split; reflexivity |]. split; [left; reflexivity | reflexivity].
  - unfold setup in Hs.
    apply connectToWiFi_frame in Hs. destruct Hs as (Hc & evs & Hlog & Hser).
    eapply steady_quiet; [| exact IH].
    apply quiet_trans with (analogWrite BLUE 255 (analogWrite GREEN 0 (analogWrite RED 0 s))).
    + eapply quiet_trans; [| apply quiet_analogWrite].
      eapply quiet_trans; [| apply quiet_analogWrite].
      apply quiet_analogWrite.
    + eapply quiet_of_core; [exact Hc | exact Hlog |].
      apply alarm_events_serial. exact Hser.
  - eapply steady_quiet; [| exact IH]. repeat split.
  - eapply steady_quiet; [| exact IH]. repeat split.
  - eapply steady_alertAndUpdate; [exact Hr |].
    apply steady_timer_run. exact IH.
  - eapply steady_loop; eassumption.
Qed.

(** X7: in every reachable state [lastCO2Threshold] is the sentinel -2 or one
    of the levels 0 to 5 (the fall-through value -1 is never recorded), and
    the timer table holds exactly the timer of that level: none for the
    sentinel, Normal and Elevated, 10 s for High, 5 s for Severe, 1 s for
    Critical and Extreme. *)
Theorem level_and_timer_agree : forall s : @Sketch float L,
  reachable s ->
  (lastCO2Threshold s = -2 \/ 0 <= lastCO2Threshold s <= 5) /\
  live_periods (timer s) =
    (if lastCO2Threshold s =? 2 then [10000]
     else if lastCO2Threshold s =? 3 then [5000]
     else if (lastCO2Threshold s =? 4) || (lastCO2Threshold s =? 5) then [1000]
     else []).
Proof.
  intros s H. destruct (reachable_steady s H) as (_ & Hk & Hm).
  split; [exact Hk |].
  unfold timer_matches_level, alarmPeriod in Hm. rewrite Hm.
  destruct (lastCO2Threshold s =? 2); [reflexivity |].
  destruct (lastCO2Threshold s =? 3); [reflexivity |].
  destruct (lastCO2Threshold s =? 4); [reflexivity |].
  destruct (lastCO2Threshold s =? 5); reflexivity.
Qed.

End Globals.

(** ** One pass of [loop] *)

Section Passes.

Context {float : Type} {L : Type} {link : Stream L} {ftext : FloatText float}.

(** X8: in a reachable state [timer.run()] calls [buzzerManager] at most once
    in a pass, never when no timer is armed, and exactly when the armed timer
    is due on the 32-bit clock; the tone it makes is chosen from the reading
    stored by an earlier pass, since [co2Level] is assigned only after
    [timer.run()].  It leaves [timerId] and the period of the timer alone. *)
Theorem retone_at_most_once : forall s : @Sketch float L,
  reachable s ->
  exists k,
    (k <= 1)%nat /\
    log (timer_run (emit (LcdSetCursor 0 0) s)) =
      log s ++ LcdSetCursor 0 0
                 :: repeat (Tone 14 NOTE_C5 (selectDuration (co2Level s) (buzzerDuration s))) k /\
    (timerId s = -1 -> k = 0%nat) /\
    (forall sl rest, timer s = Some sl :: rest ->
       (k = 1%nat <->
        SimpleTimer.delay sl <= ulong_sub (millis (clock s)) (SimpleTimer.prev_millis sl))) /\
    timerId (timer_run (emit (LcdSetCursor 0 0) s)) = timerId s /\
    live_periods (timer (timer_run (emit (LcdSetCursor 0 0) s))) = live_periods (timer s).
Proof.
  intros s Hr. pose proof (reachable_one_timer s Hr) as Hone.
  destruct (timer_run_level (emit (LcdSetCursor 0 0) s)) as [_ Hp].
  unfold timer_run in *. cbn [clock timer emit set_log] in *.
  destruct Hone as [[Hid Htm] | [Hid [sl Htm]]]; rewrite Htm in *.
  - exists 0%nat. cbn. rewrite <- ?app_assoc.
    split_ands; try reflexivity; try lia; try exact Hp.
    intros sl rest H. discriminate.
  - cbn [SimpleTimer.run repeat] in *.
    destruct (Z.leb_spec (SimpleTimer.delay sl)
                (ulong_sub (millis (clock s)) (SimpleTimer.prev_millis sl))) as [Hdue|Hnot].
    + exists 1%nat. cbn. rewrite <- ?app_assoc.
      split_ands; try reflexivity; try lia; try exact Hp.
      intros sl' rest H. inversion H; subst. split; [intros _; exact Hdue | reflexivity].
    + exists 0%nat. cbn. rewrite <- ?app_assoc.
      split_ands; try reflexivity; try lia; try exact Hp.
      intros sl' rest H. inversion H; subst. split; [discriminate | lia].
Qed.

Lemma iter_buzzerManager_frame : forall k (s : @Sketch float L),
  co2Level (Nat.iter k buzzerManager s) = co2Level s /\
  rgb (Nat.iter k buzzerManager s) = rgb s /\
  ledOn (Nat.iter k buzzerManager s) = ledOn s /\
  ledStartTime (Nat.iter k buzzerManager s) = ledStartTime s /\
  clock (Nat.iter k buzzerManager s) = clock s.
Proof.
  induction k as [|k IH]; intros s; [repeat split |].
  cbn [Nat.iter]. exact (IH s).
Qed.

Lemma timer_run_frame : forall s : @Sketch float L,
  timerId (timer_run s) = timerId s /\
  rgb (timer_run s) = rgb s /\
  ledOn (timer_run s) = ledOn s /\
  ledStartTime (timer_run s) = ledStartTime s /\
  clock (timer_run s) = clock s.
Proof.
  intros s. unfold timer_run.
  destruct (SimpleTimer.run (clock s) (timer s)) as [k tm].
  destruct (iter_buzzerManager_frame k (set_timer tm s)) as (_ & A & B & C & E).
  destruct (one_timer_iter_buzzerManager k (set_timer tm s)) as [Hi _].
  rewrite Hi, A, B, C, E. repeat split.
Qed.

Lemma alarm_events_transition : forall level (s : @Sketch float L),
  alarm_events (transition_calls level s) = transition_calls level s.
Proof.
  intros level s. unfold transition_calls.
  destruct (timerId s =? -1); destruct (alarmPeriod level); reflexivity.
Qed.

(** X9: a pass that sees a reading records the class of the reading in
    [lastCO2Threshold] and the [int] copy of the reading in [co2Level].  When
    the class differs from the level recorded before, the pass makes, after
    the tones of [timer.run()] and in this order: the cancel of the armed
    timer if there is one, a pulse whose duration is chosen from the copy of
    the reading of this very pass, and the arming of the timer of the new
    level if it has one.  The pulse lasts 2000, 1000 or 500 ms for a reading
    from 1000 to 32767 ppm; for a reading from 32768 to 65535 ppm the copy is
    negative and the pulse has the duration left by the pulse before. *)
Theorem reading_changes_level : forall fuel ppm dht (s s' : @Sketch float L),
  reachable s ->
  loop fuel (Some ppm) dht s = Some s' ->
  lastCO2Threshold s' = classify ppm /\
  co2Level s' = to_int ppm /\
  (classify ppm <> lastCO2Threshold s ->
     alarm_events (log s') =
       alarm_events (log (timer_run (emit (LcdSetCursor 0 0) s))) ++
       (if timerId s =? -1 then [] else [DeleteTimer (timerId s)]) ++
       [Tone 14 NOTE_C5
          (selectDuration (to_int ppm)
             (buzzerDuration (timer_run (emit (LcdSetCursor 0 0) s))))] ++
       match alarmPeriod (classify ppm) with
       | Some d => [SetInterval d 0]
       | None => []
       end) /\
  (1000 <= ppm < 32768 ->
     selectDuration (to_int ppm) (buzzerDuration (timer_run (emit (LcdSetCursor 0 0) s))) =
       if ppm <? 5000 then 2000 else if ppm <? 10000 then 1000 else 500) /\
  (32768 <= ppm < 65536 ->
     to_int ppm < 0 /\
     selectDuration (to_int ppm) (buzzerDuration (timer_run (emit (LcdSetCursor 0 0) s))) =
       buzzerDuration (timer_run (emit (LcdSetCursor 0 0) s))).
Proof.
  intros fuel ppm dht s s' Hr H.
  set (s1 := timer_run (emit (LcdSetCursor 0 0) s)) in *.
  assert (Hone1 : one_timer s1).
  { apply timer_run_pass_one_timer. apply reachable_one_timer. exact Hr. }
  unfold loop in H. fold s1 in H.
  apply bind_Some in H. destruct H as (s3 & H3 & H).
  unfold onReading in H3.
  apply bind_Some in H3. destruct H3 as ([level s4] & H4 & H3).
  inversion H3; subst s3; clear H3. cbn [fst snd] in H.
  pose proof (alertAndUpdate_one_timer _ _ _ _ _ _ _ H4 Hone1) as Hone4.
  apply alertAndUpdate_quiet in H4. destruct H4 as [Hlevel Hq].
  destruct Hq as (Q1 & Q2 & Q3 & Q4 & Q5 & Q6).
  cbn [timerId lastCO2Threshold co2Level buzzerDuration timer log set_co2Level] in Q1, Q2, Q3, Q4, Q5, Q6.
  destruct (timer_run_level (emit (LcdSetCursor 0 0) s)) as [Hl1 _]. fold s1 in Hl1.
  destruct (timer_run_frame (emit (LcdSetCursor 0 0) s)) as (Hi1 & _). fold s1 in Hi1.
  cbn [lastCO2Threshold timerId emit set_log] in Hl1, Hi1.
  (* the tail of the pass *)
  assert (Htail : quiet (buzzerSystem level s4) s').
  { pose proof (measureEnvironment_quiet dht (stack_temperature s) (stack_humidity s)
                  (buzzerSystem level s4)) as Hm.
    destruct (measureEnvironment dht (stack_temperature s) (stack_humidity s)
                (buzzerSystem level s4))
      as [[[ok t'] h'] s5].
    cbn [snd] in Hm. cbv zeta in H.
    assert (Hm' : quiet (buzzerSystem level s4)
                    (set_stack_humidity h' (set_stack_temperature t' s5))).
    { eapply quiet_trans; [exact Hm | repeat split]. }
    destruct ok; inversion H; subst s'; clear H.
    - repeat (eapply quiet_trans; [| apply quiet_emit; reflexivity]). exact Hm'.
    - exact Hm'. }
  destruct Htail as (_ & T2 & T3 & _ & _ & T6).
  split_ands.
  - rewrite T2, buzzerSystem_records_level. exact Hlevel.
  - rewrite T3.
    destruct (Z.eq_dec level (lastCO2Threshold s4)) as [E|N].
    + rewrite E, buzzerSystem_same. exact Q3.
    + destruct (buzzerSystem_transition level s4 Hone4 N) as (_ & _ & _ & Hc & _).
      rewrite Hc. exact Q3.
  - intros Hne.
    assert (N : level <> lastCO2Threshold s4) by (rewrite Q2, Hl1, Hlevel; exact Hne).
    destruct (buzzerSystem_transition level s4 Hone4 N) as (Hlog & _).
    rewrite T6, Hlog, alarm_events_app, alarm_events_transition, Q6.
    unfold transition_calls. rewrite Q1, Q3, Q4, Hi1, Hlevel. reflexivity.
  - intros Hppm. rewrite to_int_small by lia. unfold selectDuration.
    split_comparisons; cbn; lia.
  - intros Hppm. rewrite to_int_overrange by lia.
    split; [lia |]. apply selectDuration_below_1000. lia.
Qed.

(** *** The colour of the LED *)

Lemma buzzerSystem_rgb : forall level (s : @Sketch float L),
  rgb (buzzerSystem level s) = rgb s.
Proof.
  intros level s. unfold buzzerSystem, cancelTimer, armTimer, timer_setInterval.
  destruct (negb (level =? _)); [| reflexivity].
  destruct (negb (timerId s =? -1)); destruct (alarmPeriod level) as [d|];
    try destruct (SimpleTimer.setInterval _ _ _) as [id tm]; reflexivity.
Qed.

Lemma telemetry_rgb : forall fuel temperature humidity ppm (s s' : @Sketch float L),
  telemetry fuel temperature humidity ppm s = Some s' -> rgb s' = rgb s.
Proof.
  intros fuel temperature humidity ppm s s' H. unfold telemetry in H.
  destruct (_ <=? _); [| inversion H; reflexivity].
  apply bind_Some in H. destruct H as (s1 & H1 & H).
  inversion H; subst s'; clear H.
  apply sendToThingSpeak_frame in H1. destruct H1 as (Hc & _).
  unfold core in Hc. cbn [rgb set_lastSendTime]. congruence.
Qed.

Lemma ledBlink_rgb : forall ppm (s : @Sketch float L),
  rgb (ledBlink ppm s) = rgb s \/
  rgb (ledBlink ppm s) = mkRgb 0 0 0 \/
  rgb (ledBlink ppm s) =
    (if (30000 <=? ppm) || (ppm <=? 0) then mkRgb 255 0 0 else mkRgb 255 100 0).
Proof.
  intros ppm s. destruct (ledBlink_step ppm s) as [Hon Hoff].
  destruct (Z.le_gt_cases 500 (ulong_sub (millis (clock s)) (ledStartTime s))) as [Hge|Hlt].
  - destruct (Hon Hge) as (_ & _ & _ & Hrgb). rewrite Hrgb.
    destruct (ledOn s); [right; left | right; right]; reflexivity.
  - left. rewrite Hoff by lia. reflexivity.
Qed.

(** X10: after a pass that sees a reading the LED is green below 1000 ppm,
    amber (255, 100, 0) from 2500 to 4999 ppm and red from 10000 to
    29999 ppm, whatever it showed before.  In the other bands the pass leaves
    the LED as it was or switches it off or to the blink colour.  That colour
    is amber from 1000 to 2499 and from 5000 to 9999 ppm.  From 30000 ppm up
    it is chosen from the [int] copy of the reading: red when the copy is at
    least 30000 or not positive, which is so for every reading up to
    65536 ppm, and amber when a larger reading wraps to a copy from 1 to
    29999. *)
Theorem led_follows_reading : forall fuel ppm dht (s s' : @Sketch float L),
  loop fuel (Some ppm) dht s = Some s' ->
  (ppm < 1000 -> rgb s' = mkRgb 0 255 0) /\
  (2500 <= ppm < 5000 -> rgb s' = mkRgb 255 100 0) /\
  (10000 <= ppm < 30000 -> rgb s' = mkRgb 255 0 0) /\
  (1000 <= ppm < 2500 \/ 5000 <= ppm < 10000 ->
     rgb s' = rgb s \/ rgb s' = mkRgb 0 0 0 \/ rgb s' = mkRgb 255 100 0) /\
  (30000 <= ppm ->
     rgb s' = rgb s \/ rgb s' = mkRgb 0 0 0 \/
     rgb s' = if (30000 <=? to_int ppm) || (to_int ppm <=? 0)
              then mkRgb 255 0 0 else mkRgb 255 100 0) /\
  (30000 <= ppm <= 65536 ->
     rgb s' = rgb s \/ rgb s' = mkRgb 0 0 0 \/ rgb s' = mkRgb 255 0 0).
Proof.
  intros fuel ppm dht s s' H.
  set (s1 := timer_run (emit (LcdSetCursor 0 0) s)) in *.
  assert (Hrgb1 : rgb s1 = rgb s).
  { destruct (timer_run_frame (emit (LcdSetCursor 0 0) s)) as (_ & A & _). exact A. }
  unfold loop in H. fold s1 in H.
  apply bind_Some in H. destruct H as (s3 & H3 & H).
  assert (Htail : rgb s' = rgb s3).
  { unfold measureEnvironment in H.
    destruct (3000 <? _); [destruct dht as [[a b]|] |]; inversion H; reflexivity. }
  unfold onReading in H3.
  apply bind_Some in H3. destruct H3 as ([level s4] & H4 & H3).
  inversion H3; subst s3; clear H3. cbn [fst snd] in Htail.
  rewrite buzzerSystem_rgb in Htail.
  unfold alertAndUpdate in H4. rewrite band_cases in H4.
  set (s2 := emit (LcdPrint "  ") (emit (LcdPrint "ppm") (emit (LcdPrint "  ")
               (emit (LcdPrintInt ppm) (set_co2Level (to_int ppm) s1))))) in *.
  assert (Hrgb2 : rgb s2 = rgb s) by exact Hrgb1.
  pose proof (ledBlink_rgb (to_int ppm) s2) as Hblink. rewrite Hrgb2 in Hblink.
  destruct (Z.ltb_spec ppm 1000) as [B0|B0];
    [| destruct (Z.ltb_spec ppm 2500) as [B1|B1];
       [| destruct (Z.ltb_spec ppm 5000) as [B2|B2];
          [| destruct (Z.ltb_spec ppm 10000) as [B3|B3];
             [| destruct (Z.ltb_spec ppm 30000) as [B4|B4]]]]];
    apply bind_Some in H4; destruct H4 as (s5 & H5 & H4);
    inversion H4; subst level s4; clear H4;
    try (apply telemetry_rgb in H5);
    try (inversion H5; subst s5; clear H5);
    rewrite Htail; try rewrite H5; cbn [indicate];
    split_ands; intros Hb; try lia; try reflexivity.
  - replace ((30000 <=? to_int ppm) || (to_int ppm <=? 0)) with false in Hblink;
      [exact Hblink |].
    rewrite to_int_small by lia.
    symmetry. apply orb_false_iff. split; [apply Z.leb_gt | apply Z.leb_gt]; lia.
  - replace ((30000 <=? to_int ppm) || (to_int ppm <=? 0)) with false in Hblink;
      [exact Hblink |].
    rewrite to_int_small by lia.
    symmetry. apply orb_false_iff. split; [apply Z.leb_gt | apply Z.leb_gt]; lia.
  - exact Hblink.
  - replace ((30000 <=? to_int ppm) || (to_int ppm <=? 0)) with true in Hblink;
      [exact Hblink |].
    symmetry. apply orb_true_iff.
    destruct (Z.lt_ge_cases ppm 32768) as [Hs|Hs].
    + left. rewrite to_int_small by lia. apply Z.leb_le. lia.
    + right. apply Z.leb_le.
      destruct (Z.eq_dec ppm 65536) as [E|N]; [subst ppm; vm_compute; discriminate |].
      rewrite to_int_overrange by lia. lia.
Qed.

(** *** The environment sampler and the display *)

Lemma elapsed_since_millis : forall t t0,
  ulong_sub (millis t) (millis t0) = to_ulong (t - t0).
Proof.
  intros t t0. unfold ulong_sub, millis, to_ulong.
  rewrite <- Zminus_mod. reflexivity.
Qed.

(** X11: [measureEnvironment] never measures in its first call, which only
    stamps the time.  Later it reports a measurement exactly when more than
    3000 ms have passed on the 32-bit clock since the stamp and the DHT11
    delivers; it then stores the two values and takes a new stamp.  When it
    reports nothing the caller's variables and the stamp are as before.  It
    logs nothing and takes no time. *)
Theorem measureEnvironment_rate :
  forall dht temperature humidity (s : @Sketch float L) ok temperature' humidity' s',
  measureEnvironment dht temperature humidity s = (ok, temperature', humidity', s') ->
  log s' = log s /\ clock s' = clock s /\
  (measurementTimestamp s = None ->
     ok = false /\ temperature' = temperature /\ humidity' = humidity /\
     measurementTimestamp s' = Some (millis (clock s))) /\
  (forall t0,
     measurementTimestamp s = Some (millis t0) ->
     0 <= clock s - t0 < 2 ^ 32 ->
     (ok = true <-> 3000 < clock s - t0 /\ dht <> None) /\
     (ok = true ->
        exists a b, dht = Some (a, b) /\
                    temperature' = Assigned a /\ humidity' = Assigned b /\
                    measurementTimestamp s' = Some (millis (clock s))) /\
     (ok = false ->
        temperature' = temperature /\ humidity' = humidity /\
        measurementTimestamp s' = Some (millis t0))).
Proof.
  intros dht temperature humidity s ok temperature' humidity' s' H.
  unfold measureEnvironment in H.
  destruct (measurementTimestamp s) as [stamp|] eqn:Hstamp.
  - cbn [clock set_measurementTimestamp] in H.
    split_ands.
    + destruct (3000 <? _); [destruct dht as [[a b]|] |]; inversion H; reflexivity.
    + destruct (3000 <? _); [destruct dht as [[a b]|] |]; inversion H; reflexivity.
    + discriminate.
    + intros t0 Ht0 Hsmall. inversion Ht0; subst stamp; clear Ht0.
      rewrite elapsed_since_millis, to_ulong_small in H by exact Hsmall.
      destruct (Z.ltb_spec 3000 (clock s - t0)) as [Hlong|Hshort];
        [destruct dht as [[a b]|] |]; inversion H; subst; clear H.
      * split; [split; [intros _; split; [lia | discriminate] | reflexivity] |].
        split; [intros _; exists a, b; repeat split | discriminate].
      * split; [split; [discriminate | intros [_ Hd]; contradiction] |].
        split; [discriminate | intros _; repeat split].
      * split; [split; [discriminate | intros [Hl _]; lia] |].
        split; [discriminate | intros _; repeat split].
  - cbn [clock set_measurementTimestamp] in H.
    rewrite elapsed_since_millis in H.
    replace (clock s - clock s) with 0 in H by lia.
    change (3000 <? to_ulong 0) with false in H.
    inversion H; subst; clear H.
    split; [reflexivity |]. split; [reflexivity |].
    split; [intros _; repeat split | intros t0 Ht0; discriminate].
Qed.

Lemma measureEnvironment_log : forall dht temperature humidity (s : @Sketch float L),
  log (snd (measureEnvironment dht temperature humidity s)) = log s /\
  (fst (fst (fst (measureEnvironment dht temperature humidity s))) = true ->
   exists a b,
     dht = Some (a, b) /\
     snd (fst (fst (measureEnvironment dht temperature humidity s))) = Assigned a /\
     snd (fst (measureEnvironment dht temperature humidity s)) = Assigned b).
Proof.
  intros dht temperature humidity s. unfold measureEnvironment.
  destruct (3000 <? _); [destruct dht as [[a b]|] |]; cbn [fst snd];
    (split; [reflexivity |]); try discriminate.
  intros _. exists a, b. repeat split.
Qed.

Lemma blank_refl : forall s : @Sketch float L, blank s s.
Proof. intros s. exists []. split; [symmetry; apply app_nil_r | reflexivity]. Qed.

Lemma no_float_print_app : forall a b : list (@Event float),
  no_float_print a -> no_float_print b -> no_float_print (a ++ b).
Proof.
  unfold no_float_print. intros a b Ha Hb. rewrite forallb_app, Ha, Hb. reflexivity.
Qed.

Lemma blank_trans : forall s1 s2 s3 : @Sketch float L,
  blank s1 s2 -> blank s2 s3 -> blank s1 s3.
Proof.
  intros s1 s2 s3 (e1 & L1 & N1) (e2 & L2 & N2).
  exists (e1 ++ e2). split; [rewrite L2, L1, app_assoc; reflexivity |].
  apply no_float_print_app; assumption.
Qed.

Lemma blank_emit : forall (e : @Event float) (s : @Sketch float L),
  is_float_print e = false -> blank s (emit e s).
Proof.
  intros e s He. exists [e]. split; [reflexivity |].
  unfold no_float_print. cbn. rewrite He. reflexivity.
Qed.

Lemma blank_same_log : forall s s' : @Sketch float L, log s' = log s -> blank s s'.
Proof. intros s s' H. exists []. rewrite H. split; [symmetry; apply app_nil_r | reflexivity]. Qed.

Lemma blank_indicate : forall i ppm (s : @Sketch float L), blank s (indicate i ppm s).
Proof.
  intros i ppm s. destruct i as [q r g b| |]; cbn [indicate].
  - apply blank_trans with (if q then noTone 14 s else s).
    + destruct q; [apply blank_emit; reflexivity | apply blank_refl].
    + apply blank_same_log. reflexivity.
  - apply blank_same_log. unfold ledBlink.
    destruct (500 <=? _); [| reflexivity].
    cbn [ledOn set_ledStartTime set_ledOn].
    destruct (negb (ledOn s)); [destruct (_ || _) |]; reflexivity.
  - apply blank_refl.
Qed.

Lemma blank_buzzerManager : forall s : @Sketch float L, blank s (buzzerManager s).
Proof. intros s. exists [Tone 14 NOTE_C5 (selectDuration (co2Level s) (buzzerDuration s))].
  split; reflexivity.
Qed.

Lemma blank_timer_run : forall s : @Sketch float L, blank s (timer_run s).
Proof.
  intros s. unfold timer_run. destruct (SimpleTimer.run _ _) as [k tm].
  apply blank_trans with (set_timer tm s); [apply blank_same_log; reflexivity |].
  generalize (set_timer tm s). clear s.
  induction k as [|k IH]; intros s; [apply blank_refl |].
  cbn [Nat.iter]. eapply blank_trans; [apply IH | apply blank_buzzerManager].
Qed.

Lemma blank_buzzerSystem : forall level (s : @Sketch float L),
  blank s (buzzerSystem level s).
Proof.
  intros level s. unfold buzzerSystem.
  destruct (negb _); [| apply blank_refl].
  apply blank_trans with (armTimer level (buzzerManager (cancelTimer s)));
    [| apply blank_same_log; reflexivity].
  apply blank_trans with (buzzerManager (cancelTimer s)).
  - apply blank_trans with (cancelTimer s); [| apply blank_buzzerManager].
    unfold cancelTimer, timer_deleteTimer. destruct (negb _); [| apply blank_refl].
    exists [DeleteTimer (timerId s)]. split; reflexivity.
  - unfold armTimer, timer_setInterval. destruct (alarmPeriod level) as [d|]; [| apply blank_refl].
    destruct (SimpleTimer.setInterval _ _ _) as [id tm].
    exists [SetInterval d id]. split; reflexivity.
Qed.

Lemma blank_serial : forall evs : list (@Event float), all_serial evs -> no_float_print evs.
Proof.
  unfold all_serial, no_float_print.
  induction evs as [|e evs IH]; cbn; intros H; [reflexivity |].
  apply andb_true_iff in H. destruct H as [He Hs]. rewrite (IH Hs).
  destruct e; cbn in *; try discriminate; reflexivity.
Qed.

Lemma blank_telemetry : forall fuel temperature humidity ppm (s s' : @Sketch float L),
  telemetry fuel temperature humidity ppm s = Some s' -> blank s s'.
Proof.
  intros fuel temperature humidity ppm s s' H. unfold telemetry in H.
  destruct (_ <=? _); [| inversion H; apply blank_refl].
  apply bind_Some in H. destruct H as (s1 & H1 & H).
  inversion H; subst s'; clear H.
  apply sendToThingSpeak_frame in H1. destruct H1 as (_ & _ & evs & Hl & Hs).
  exists (CallSendToThingSpeak temperature humidity ppm :: evs).
  split; [exact Hl |].
  unfold no_float_print. cbn [forallb is_float_print negb andb].
  apply blank_serial. exact Hs.
Qed.

Lemma blank_onReading : forall fuel temperature humidity ppm (s s' : @Sketch float L),
  onReading fuel temperature humidity ppm s = Some s' -> blank s s'.
Proof.
  intros fuel temperature humidity ppm s s' H. unfold onReading in H.
  apply bind_Some in H. destruct H as ([level s4] & H4 & H).
  inversion H; subst s'; clear H. cbn [fst snd].
  eapply blank_trans; [| apply blank_buzzerSystem].
  unfold alertAndUpdate in H4.
  destruct (band ppm) as [[thr ind] inElse].
  apply bind_Some in H4. destruct H4 as (s5 & H5 & H4).
  inversion H4; subst level s4; clear H4.
  match type of H5 with
  | context [indicate ind ?c ?st] => assert (H3 : blank s (indicate ind c st))
  end.
  { eapply blank_trans; [| apply blank_indicate].
    eapply blank_trans; [| apply blank_emit; reflexivity].
    eapply blank_trans; [| apply blank_emit; reflexivity].
    eapply blank_trans; [| apply blank_emit; reflexivity].
    eapply blank_trans; [| apply blank_emit; reflexivity].
    apply blank_same_log. reflexivity. }
  destruct inElse.
  - eapply blank_trans; [exact H3 |]. eapply blank_telemetry; exact H5.
  - inversion H5; subst s5. exact H3.
Qed.

(** X12: the second row of the display is written by a pass exactly when
    [measureEnvironment] reported a measurement in that pass, once, as the
    last calls of the pass and with the two values just measured; nothing else
    in a pass prints a temperature or a humidity, so the unassigned locals are
    never displayed. *)
Theorem display_shows_only_measurements :
  forall fuel co2 dht (s s' : @Sketch float L),
  loop fuel co2 dht s = Some s' ->
  exists pre,
    no_float_print pre /\
    (log s' = log s ++ pre \/
     exists a b,
       dht = Some (a, b) /\
       log s' = log s ++ pre ++ environment_line (Assigned a) (Assigned b)).
Proof.
  intros fuel co2 dht s s' H. unfold loop in H.
  apply bind_Some in H. destruct H as (s3 & H3 & H).
  assert (B3 : blank s s3).
  { apply blank_trans with (timer_run (emit (LcdSetCursor 0 0) s)).
    - eapply blank_trans; [| apply blank_timer_run]. apply blank_emit. reflexivity.
    - destruct co2 as [ppm|].
      + eapply blank_onReading; exact H3.
      + inversion H3. apply blank_refl. }
  destruct B3 as (pre & Hl & Hn). exists pre. split; [exact Hn |].
  destruct (measureEnvironment dht (stack_temperature s) (stack_humidity s) s3)
    as [[[ok t'] h'] s4] eqn:Hm.
  pose proof (measureEnvironment_log dht (stack_temperature s) (stack_humidity s) s3)
    as Hlog.
  rewrite Hm in Hlog. cbn [fst snd] in Hlog. destruct Hlog as (Hlog & Hok).
  cbv zeta in H.
  destruct ok.
  - right. destruct (Hok eq_refl) as (a & b & Hd & Ht & Hh).
    exists a, b. split; [exact Hd |].
    inversion H; subst s'; clear H.
    unfold emit. cbn [log set_log set_stack_humidity set_stack_temperature].
    rewrite Hlog, Hl, Ht, Hh.
    unfold environment_line. rewrite <- !app_assoc. reflexivity.
  - left. inversion H; subst s'.
    cbn [log set_stack_humidity set_stack_temperature]. rewrite Hlog. exact Hl.
Qed.

End Passes.

(** ** Edges of the command engine *)

Section LinkEdges.

Context {float : Type} {L : Type} {link : Stream L} {ftext : FloatText float}.

(** X13: an update to ThingSpeak, whatever its outcome, changes nothing of the
    alarm: the level, the stored reading, the tone duration, the timer and
    its handle, the colour of the LED and the state of the blinking, and the
    stamp of the environment sampler are as before, and no tone, cancel or
    arm call is made. *)
Theorem upload_leaves_alarm_alone :
  forall fuel temperature humidity ppm (s s' : @Sketch float L),
  telemetry fuel temperature humidity ppm s = Some s' ->
  timerId s' = timerId s /\ timer s' = timer s /\
  lastCO2Threshold s' = lastCO2Threshold s /\ co2Level s' = co2Level s /\
  buzzerDuration s' = buzzerDuration s /\
  rgb s' = rgb s /\ ledOn s' = ledOn s /\ ledStartTime s' = ledStartTime s /\
  measurementTimestamp s' = measurementTimestamp s /\
  alarm_events (log s') = alarm_events (log s).
Proof.
  intros fuel temperature humidity ppm s s' H.
  pose proof (telemetry_quiet _ _ _ _ _ _ H) as (_ & _ & _ & _ & _ & Ha).
  unfold telemetry in H.
  destruct (_ <=? _); [| inversion H; subst; repeat split].
  apply bind_Some in H. destruct H as (s1 & H1 & H).
  inversion H; subst s'; clear H.
  apply sendToThingSpeak_frame in H1. destruct H1 as (Hc & _).
  unfold core in Hc.
  cbn [timerId timer lastCO2Threshold co2Level buzzerDuration rgb ledOn ledStartTime
       measurementTimestamp set_lastSendTime].
  split_ands; first [exact Ha | congruence].
Qed.

(** X14: with a timeout of zero [sendCommand] writes the command and reports
    FAIL at once: the loop body is never entered, so [find] is not called, no
    time passes and an answer that may be waiting is not read. *)
Theorem zero_timeout_fails_at_once :
  forall fuel command maxTime readResponse (s : @Sketch float L),
  found s = false ->
  to_ulong maxTime = 0 ->
  exists s',
    sendCommand fuel command maxTime readResponse s = Some s' /\
    esp8266 s' = stream_println command (esp8266 s) /\
    clock s' = clock s /\
    countTrueCommand s' = countTrueCommand s /\
    log s' = log s ++ report (countTrueCommand s) command ": FAIL".
Proof.
  intros fuel command maxTime readResponse s Hfound Hzero.
  unfold sendCommand.
  assert (Hw : forall st : @Sketch float L,
            awaitResponse fuel (to_long (millis (clock st))) maxTime readResponse st = Some st).
  { intros st. destruct fuel; cbn [awaitResponse]; rewrite Hzero;
      pose proof (to_ulong_range (millis (clock st) - to_long (millis (clock st))));
      unfold ulong_sub;
      destruct (Z.ltb_spec (to_ulong (millis (clock st) - to_long (millis (clock st)))) 0);
      try lia; reflexivity. }
  cbn [clock set_esp8266 emit set_log].
  match goal with
  | |- context [awaitResponse fuel (to_long (millis (clock s))) maxTime readResponse ?st] =>
      pose proof (Hw st) as Hst; cbn [clock set_esp8266 emit set_log] in Hst; rewrite Hst
  end.
  cbn [found set_esp8266 emit set_log]. rewrite Hfound. cbn [negb].
  cbn [found set_esp8266 emit set_log]. rewrite Hfound. cbn [negb].
  eexists. split; [reflexivity |].
  cbn [esp8266 clock countTrueCommand log set_found set_esp8266 emit set_log].
  split_ands; try reflexivity.
  unfold report. rewrite <- !app_assoc. reflexivity.
Qed.

End LinkEdges.

(** ** The further properties on the bench *)

Lemma unplugged_print_appends : forall text (l : Unplugged),
  written (stream_print text l) = (written l ++ text)%string.
Proof. reflexivity. Qed.

Lemma unplugged_println_appends : forall text (l : Unplugged),
  written (stream_println text l) = (written l ++ text ++ crlf)%string.
Proof. reflexivity. Qed.

Lemma unplugged_find_keeps : forall target t (l : Unplugged),
  written (snd (stream_find target t l)) = written l.
Proof. reflexivity. Qed.

Lemma unplugged_never_answers : forall target t (l : Unplugged),
  fst (fst (stream_find target t l)) = false.
Proof. reflexivity. Qed.

Lemma modem_always_answers : forall target t (l : Modem),
  fst (fst (stream_find target t l)) = true.
Proof. reflexivity. Qed.

Lemma upload_writes_all_steps_witness :
  exists s',
    sendToThingSpeak 4001 Unassigned Unassigned 3000 bench = Some s' /\
    written (esp8266 s') =
      (written (esp8266 bench)
       ++ (CIPSTART ++ crlf)
       ++ ("AT+CIPSEND="
             ++ String_of_int
                  (Z.of_nat (String.length (request_of (float := Z) Unassigned Unassigned 3000)) + 2)
             ++ crlf)
       ++ request_of (float := Z) Unassigned Unassigned 3000
       ++ ("AT+CIPCLOSE" ++ crlf))%string.
Proof.
  destruct (upload_writes_all_steps written
              unplugged_print_appends unplugged_println_appends unplugged_find_keeps
              1000 unplugged_find_returns
              4001%nat Unassigned Unassigned 3000 bench)
    as (s' & Hs & Ht & _).
  - vm_compute. reflexivity.
  - vm_compute. reflexivity.
  - exists s'. split; [exact Hs | exact Ht].
Defined.

Lemma setup_brings_up_link_witness :
  exists s',
    setup (Z.to_nat 10001) bench = Some s' /\
    rgb s' = mkRgb 0 0 255 /\
    written (esp8266 s') =
      (written (esp8266 bench) ++ ("AT" ++ crlf) ++ ("AT+CWMODE=1" ++ crlf)
       ++ (CWJAP ++ crlf))%string.
Proof.
  destruct (setup_brings_up_link written
              unplugged_println_appends unplugged_find_keeps
              1000 unplugged_find_returns (Z.to_nat 10001) bench)
    as (s' & Hs & Hrgb & Ht & _).
  - vm_compute. reflexivity.
  - vm_compute. reflexivity.
  - exists s'. split; [exact Hs |]. split; [exact Hrgb | exact Ht].
Defined.

Lemma setup_without_module_witness :
  exists s',
    setup (Z.to_nat 10001) bench = Some s' /\
    countTrueCommand s' = countTrueCommand bench /\
    clock bench + 14000 <= clock s'.
Proof.
  destruct (setup_without_module 1000 unplugged_find_returns unplugged_never_answers
              (Z.to_nat 10001) bench)
    as (s' & Hs & Hn & Hc & _).
  - reflexivity.
  - vm_compute. reflexivity.
  - vm_compute. reflexivity.
  - exists s'. split; [exact Hs |]. split; [exact Hn | exact (proj1 Hc)].
Defined.

Lemma upload_without_module_witness :
  exists s',
    telemetry 4001 Unassigned Unassigned 3000 (elapse 20000 bench) = Some s' /\
    clock (elapse 20000 bench) + 9500 <= clock s' /\
    countTrueCommand s' = countTrueCommand (elapse 20000 bench).
Proof.
  destruct (upload_without_module 1000 unplugged_find_returns unplugged_never_answers
              4001%nat Unassigned Unassigned 3000 (elapse 20000 bench))
    as (s' & Hs & Hc & Hn & _).
  - reflexivity.
  - vm_compute. reflexivity.
  - vm_compute. reflexivity.
  - vm_compute. discriminate.
  - exists s'. split; [exact Hs |]. split; [exact (proj1 Hc) | exact Hn].
Defined.

Lemma setup_with_module_witness :
  exists s',
    setup 1 answering = Some s' /\
    countTrueCommand s' = countTrueCommand answering + 3.
Proof.
  destruct (setup_with_module 1000 modem_find_returns modem_always_answers
              0%nat answering)
    as (s' & Hs & Hn & _).
  - reflexivity.
  - exists s'. split; [exact Hs | exact Hn].
Defined.

Lemma found_is_reset_witness :
  exists s1, loop 5 (Some 3000) None (elapse 20000 bench) = Some s1 /\ found s1 = false.
Proof.
  eexists. split; [vm_compute; reflexivity |].
  apply found_is_reset.
  apply (reach_loop 5%nat (Some 3000) None (elapse 20000 bench)).
  - apply reach_elapse. apply reach_power_on.
  - vm_compute. reflexivity.
Defined.

Lemma level_and_timer_agree_witness :
  exists s1,
    loop 1 (Some 6000) None bench = Some s1 /\
    lastCO2Threshold s1 = Severe /\ live_periods (timer s1) = [5000].
Proof.
  eexists. split; [vm_compute; reflexivity |].
  split; [reflexivity |].
  match goal with
  | |- live_periods (timer ?s1) = _ => destruct (level_and_timer_agree s1) as [_ H]
  end.
  - apply (reach_loop 1%nat (Some 6000) None bench);
      [apply reach_power_on | vm_compute; reflexivity].
  - exact H.
Defined.

Lemma retone_at_most_once_witness :
  exists s1,
    loop 1 (Some 6000) None bench = Some s1 /\
    exists k,
      (k <= 1)%nat /\
      log (timer_run (emit (LcdSetCursor 0 0) (elapse 6000 s1))) =
        log (elapse 6000 s1) ++
        LcdSetCursor 0 0
          :: repeat (Tone 14 NOTE_C5
                       (selectDuration (co2Level (elapse 6000 s1))
                          (buzzerDuration (elapse 6000 s1)))) k.
Proof.
  eexists. split; [vm_compute; reflexivity |].
  match goal with
  | |- context [elapse 6000 ?s1] =>
      destruct (retone_at_most_once (elapse 6000 s1)) as (k & Hk & Hl & _)
  end.
  - apply reach_elapse.
    apply (reach_loop 1%nat (Some 6000) None bench);
      [apply reach_power_on | vm_compute; reflexivity].
  - exists k. split; [exact Hk | exact Hl].
Defined.

Lemma reading_changes_level_witness :
  (exists s',
     loop 1 (Some 6000) None bench = Some s' /\
     lastCO2Threshold s' = classify 6000 /\ co2Level s' = 6000) /\
  (exists s',
     loop 5 (Some 40000) None bench = Some s' /\
     lastCO2Threshold s' = Extreme /\ co2Level s' = -25536).
Proof.
  split.
  - destruct (loop 1 (Some 6000) None bench) as [s'|] eqn:E;
      [| vm_compute in E; discriminate].
    exists s'. split; [reflexivity |].
    destruct (reading_changes_level 1%nat 6000 None bench s'
                (reach_power_on 0 (mkUnplugged EmptyString)) E)
      as (A & B & _).
    split; [exact A | exact B].
  - destruct (loop 5 (Some 40000) None bench) as [s'|] eqn:E;
      [| vm_compute in E; discriminate].
    exists s'. split; [reflexivity |].
    destruct (reading_changes_level 5%nat 40000 None bench s'
                (reach_power_on 0 (mkUnplugged EmptyString)) E)
      as (A & B & _).
    split; [exact A | exact B].
Defined.

Lemma led_follows_reading_witness :
  (exists s', loop 1 (Some 3000) None bench = Some s' /\ rgb s' = mkRgb 255 100 0) /\
  (exists s',
     loop 5 (Some 66036) None (elapse 600 bench) = Some s' /\
     (rgb s' = rgb (elapse 600 bench) \/ rgb s' = mkRgb 0 0 0 \/
      rgb s' = mkRgb 255 100 0)).
Proof.
  split.
  - destruct (loop 1 (Some 3000) None bench) as [s'|] eqn:E;
      [| vm_compute in E; discriminate].
    exists s'. split; [reflexivity |].
    destruct (led_follows_reading 1%nat 3000 None bench s' E) as (_ & H & _).
    apply H. lia.
  - destruct (loop 5 (Some 66036) None (elapse 600 bench)) as [s'|] eqn:E;
      [| vm_compute in E; discriminate].
    exists s'. split; [reflexivity |].
    destruct (led_follows_reading 5%nat 66036 None (elapse 600 bench) s' E)
      as (_ & _ & _ & _ & H & _).
    apply H. lia.
Defined.

Lemma measureEnvironment_rate_witness :
  fst (fst (fst (measureEnvironment (Some (21, 40)) Unassigned Unassigned
                   (set_measurementTimestamp (Some (millis 0)) (elapse 4000 bench)))))
    = true.
Proof.
  destruct (measureEnvironment (Some (21, 40)) Unassigned Unassigned
              (set_measurementTimestamp (Some (millis 0)) (elapse 4000 bench)))
    as [[[ok t'] h'] s'] eqn:E.
  destruct (measureEnvironment_rate _ _ _ _ _ _ _ _ E) as (_ & _ & _ & H).
  destruct (H 0) as (Hiff & _).
  - reflexivity.
  - vm_compute. split; [discriminate | reflexivity].
  - cbn [fst]. apply Hiff. split; [vm_compute; reflexivity | discriminate].
Defined.

Lemma display_shows_only_measurements_witness :
  exists s' pre,
    loop 1 (Some 500) (Some (21, 40)) bench = Some s' /\
    no_float_print pre /\
    (log s' = log bench ++ pre \/
     exists a b,
       Some (21, 40) = Some (a, b) /\
       log s' = log bench ++ pre ++ environment_line (Assigned a) (Assigned b)).
Proof.
  destruct (loop 1 (Some 500) (Some (21, 40)) bench) as [s'|] eqn:E;
    [| vm_compute in E; discriminate].
  destruct (display_shows_only_measurements 1%nat (Some 500) (Some (21, 40)) bench s' E)
    as (pre & Hn & H).
  exists s', pre. split; [reflexivity |]. split; [exact Hn | exact H].
Defined.

Lemma upload_leaves_alarm_alone_witness :
  exists s',
    telemetry 5 Unassigned Unassigned 3000 (elapse 20000 bench) = Some s' /\
    rgb s' = rgb (elapse 20000 bench) /\
    timer s' = timer (elapse 20000 bench).
Proof.
  destruct (telemetry 5 Unassigned Unassigned 3000 (elapse 20000 bench)) as [s'|] eqn:E;
    [| vm_compute in E; discriminate].
  exists s'. split; [reflexivity |].
  destruct (upload_leaves_alarm_alone _ _ _ _ _ _ E) as (_ & A & _ & _ & _ & B & _).
  split; [exact B | exact A].
Defined.

Lemma zero_timeout_fails_at_once_witness :
  exists s',
    sendCommand 0 "AT" 0 "OK" bench = Some s' /\
    clock s' = clock bench /\
    log s' = log bench ++ report (countTrueCommand bench) "AT" ": FAIL".
Proof.
  destruct (zero_timeout_fails_at_once 0%nat "AT" 0 "OK" bench) as (s' & Hs & _ & Hc & _ & Hl).
  - reflexivity.
  - reflexivity.
  - exists s'. split; [exact Hs |]. split; [exact Hc | exact Hl].
Defined.
